(** * The TeamCity build-server client (pkg/buildserver/teamcity/teamcity.go)

    A shallow embedding of the Go client and the properties of its
    request construction, authentication header, payloads and error
    handling.

    Conventions.
    - A Go [string] is a Rocq [string] (a sequence of 8-bit characters); a
      Go [[]byte] is a [list byte]; a Go [int] is a [Z] (no arithmetic is
      performed on build ids or counts, so no wrap-around arises).
    - A Go [map[string]V] is a [gmap string V]; [range] over it visits every
      entry once, in an order chosen by the runtime.
    - The outside world (URL parsing, the network, encoding/json) is a
      [Runtime] of oracles; the effects of a method (requests handed to
      [client.Do], lines given to package [log], map iterations) are
      threaded through an explicit [State]. *)

From Stdlib Require Import ZArith String Ascii DecimalString.
From Stdlib Require Import DecimalPos DecimalZ.
From stdpp Require Import base option list gmap strings fin_maps.

Local Open Scope Z_scope.
Local Open Scope string_scope.
Local Open Scope list_scope.

(** ** Package [strings] and [fmt] *)

(** [s[i:]] on a Go string. *)
Definition slice_from (i : nat) (s : string) : string :=
  String.substring i (String.length s - i) s.

(** [s[0:j]] on a Go string. *)
Definition slice_to (j : nat) (s : string) : string :=
  String.substring 0 j s.

(** [strings.HasPrefix]:
    [len(s) >= len(prefix) && s[0:len(prefix)] == prefix]. *)
Definition HasPrefix (s prefix : string) : bool :=
  (String.length prefix <=? String.length s)%nat
  && String.eqb (slice_to (String.length prefix) s) prefix.

(** [strings.TrimPrefix]:
    [if HasPrefix(s, prefix) { return s[len(prefix):] }; return s]. *)
Definition TrimPrefix (s prefix : string) : string :=
  if HasPrefix s prefix then slice_from (String.length prefix) s else s.

(** The verb [%d] of [fmt.Sprintf] on an [int]: decimal digits, with a
    leading minus sign on negative numbers. *)
Definition fmt_d (n : Z) : string := NilZero.string_of_int (Z.to_int n).

(** The verb [%t] of [fmt.Sprintf] on a [bool]. *)
Definition fmt_t (b : bool) : string := if b then "true" else "false".

(** ** Errors, results and HTTP messages *)

(** A Go [error] value, represented by its message [err.Error()]; the
    [nil] error is [None] of [option error]. *)
Definition error : Type := string.

(** The pair [(value, err)] of a library call whose value is unusable
    when [err != nil]. *)
Inductive result (A : Type) : Type :=
  | Ok (a : A)
  | Err (e : error).
Arguments Ok {A} a.
Arguments Err {A} e.

(** [http.Header]: canonical header name to the list of its values. The
    three names the client uses ([Authorization], [Accept],
    [Content-Type]) are already in canonical form. *)
Abbreviation Header := (gmap string (list string)).

(** [Header.Add]: append a value to the values of a key. *)
Definition Header_Add (h : Header) (key value : string) : Header :=
  <[key := default [] (h !! key) ++ [value]]> h.

(** [Header.Get]: the first value of a key, or the empty string. *)
Definition Header_Get (h : Header) (key : string) : string :=
  match h !! key with
  | Some (v :: _) => v
  | _ => EmptyString
  end.

(** [http.Request], as far as the client sets it. *)
Record Request : Type := mkRequest {
  Method : string;
  URL : string;
  ReqHeader : Header;
  ReqBody : option (list Byte.byte)
}.

(** [resp.Body]: the bytes the reader delivers, and the error (if any)
    that ends the stream after them. *)
Record BodyReader : Type := mkBody {
  stream : list Byte.byte;
  stream_err : option error
}.

(** [http.Response], as far as a caller can observe it. *)
Record Response : Type := mkResponse {
  StatusCode : Z;
  RespHeader : Header;
  Body : BodyReader
}.

(** [ioutil.ReadAll]: everything read before the end of the stream or the
    first error, together with that error. *)
Definition ioutil_ReadAll (b : BodyReader) : list Byte.byte * option error :=
  (stream b, stream_err b).

(** [http.Transport], as [NewTeamcityClient] configures it: the timeout
    of the dialer, the TLS handshake timeout and the TLS verification
    policy (durations in nanoseconds; the proxy comes from the
    environment of the process). *)
Record http_Transport : Type := mkTransport {
  DialTimeout : Z;
  TLSHandshakeTimeout : Z;
  InsecureSkipVerify : bool
}.

(** [http.Client]: the overall request timeout and the transport. *)
Record http_Client : Type := mkClient {
  Timeout : Z;
  Transport : http_Transport
}.

(** ** The client object *)

Record TCClient : Type := mkTCClient {
  client : http_Client;
  token : string;
  serverURL : string
}.

Definition NewTeamcityClient
    (requestTimeout dialTimeout tlsHandshakeTimeout : Z)
    (serverURL token : string) (insecure : bool) : TCClient :=
  let tr :=
    {| DialTimeout := dialTimeout;
       TLSHandshakeTimeout := tlsHandshakeTimeout;
       InsecureSkipVerify := insecure |} in
  let client := {| Timeout := requestTimeout; Transport := tr |} in
  {| client := client;
     serverURL := serverURL;
     token := TrimPrefix token "Bearer " |}.

Definition setAuthorizationHeader (t : TCClient) (headers : Header) : Header :=
  Header_Add headers "Authorization" ("Bearer " +:+ token t).

(** ** Request and response records

    The struct declarations live outside [teamcity.go]; the records below
    carry the fields that [teamcity.go] reads and writes. Each record sits
    in a module of the struct's name, so that fields keep their Go
    names. *)

(** Modelled from the spec: the declaration of [TCBuildType] is missing;
    a build-type reference holding the build-type identifier. *)
Module TCBuildType.
Record t : Type := mk { ID : string }.
End TCBuildType.

(** Modelled from the spec: the declaration of [TCBuildComment] is
    missing; the human comment of a trigger request. *)
Module TCBuildComment.
Record t : Type := mk { Text : string }.
End TCBuildComment.

(** Modelled from the spec: the declaration of [TCBuildProperty] is
    missing; a name/value property pair, built positionally as
    [TCBuildProperty{k, v}]. *)
Module TCBuildProperty.
Record t : Type := mk { Name : string; Value : string }.
End TCBuildProperty.

(** Modelled from the spec: the declaration of [TCBuildProperties] is
    missing; the list of property pairs. *)
Module TCBuildProperties.
Record t : Type := mk { Property : list TCBuildProperty.t }.
End TCBuildProperties.

(** Modelled from the spec: the declaration of [TCBuildDetails] is
    missing; a build reference: numeric build id and build-type
    identifier. *)
Module TCBuildDetails.
Record t : Type := mk { ID : Z; BuildTypeID : string }.
(** The zero value of [var buildDetails TCBuildDetails]. *)
Definition zero : t := {| ID := 0; BuildTypeID := EmptyString |}.
End TCBuildDetails.

(** Modelled from the spec: the declaration of
    [TCBuildSnapshotDependencies] is missing; a list of build references
    (also the container [GetAllBuilds] decodes into). *)
Module TCBuildSnapshotDependencies.
Record t : Type := mk { Builds : list TCBuildDetails.t }.
Definition zero : t := {| Builds := [] |}.
End TCBuildSnapshotDependencies.

(** Modelled from the spec: the declaration of [TCBuildPayload] is
    missing; the trigger request. The two dependency fields are pointers
    ([nil] is [None]). *)
Module TCBuildPayload.
Record t : Type := mk {
  BuildType : TCBuildType.t;
  Comment : TCBuildComment.t;
  Properties : TCBuildProperties.t;
  Personal : string;
  BranchName : string;
  SnapshotDependencies : option TCBuildSnapshotDependencies.t;
  ArtifactDependencies : option TCBuildSnapshotDependencies.t
}.
Definition set_Property (p : t) (l : list TCBuildProperty.t) : t :=
  mk (BuildType p) (Comment p) (TCBuildProperties.mk l) (Personal p)
     (BranchName p) (SnapshotDependencies p) (ArtifactDependencies p).
Definition set_SnapshotDependencies
    (p : t) (d : option TCBuildSnapshotDependencies.t) : t :=
  mk (BuildType p) (Comment p) (Properties p) (Personal p)
     (BranchName p) d (ArtifactDependencies p).
Definition set_ArtifactDependencies
    (p : t) (d : option TCBuildSnapshotDependencies.t) : t :=
  mk (BuildType p) (Comment p) (Properties p) (Personal p)
     (BranchName p) (SnapshotDependencies p) d.
End TCBuildPayload.

(** Modelled from the spec: the declaration of [TCBuildStopPayload] is
    missing; the stop/cancel request: a comment and the re-queue flag. *)
Module TCBuildStopPayload.
Record t : Type := mk { Comment : string; ReaddIntoQueue : string }.
End TCBuildStopPayload.

(** Modelled from the spec: the declaration of [TCQueryParams] is
    missing; the optional filters of a build query. *)
Module TCQueryParams.
Record t : Type := mk {
  BuildTypeID : string;
  Branch : string;
  User : string;
  Count : Z;
  Start : Z;
  LookupLimit : Z;
  Running : bool;
  Cancelled : bool
}.
End TCQueryParams.

(** ** The outside world *)

(** [json.Marshal] at a source type. *)
Class Marshal (A : Type) : Type :=
  json_Marshal : A → result (list Byte.byte).

(** [json.Unmarshal] at a destination type: the destination as the
    decoder leaves it, and the decoder's error. *)
Class Unmarshal (A : Type) : Type :=
  json_Unmarshal : list Byte.byte → A → A * option error.

(** What the client does not control: [url.Parse] inside
    [http.NewRequest], the round trip of [client.Do], the order in which
    the n-th [range] statement visits a map, and the JSON codecs of the
    struct types (whose field tags are declared outside [teamcity.go]). *)
Class Runtime : Type := {
  url_Parse : string → option error;
  RoundTrip : http_Client → Request → result Response;
  range_order : nat → ∀ V : Type, gmap string V → list (string * V);
  range_order_perm :
    ∀ n V (m : gmap string V), range_order n V m ≡ₚ map_to_list m;
  Marshal_TCBuildPayload :: Marshal TCBuildPayload.t;
  Marshal_TCBuildStopPayload :: Marshal TCBuildStopPayload.t;
  Unmarshal_TCBuildDetails :: Unmarshal TCBuildDetails.t;
  Unmarshal_TCBuildSnapshotDependencies ::
    Unmarshal TCBuildSnapshotDependencies.t
}.

(** [http.NewRequest]: fails when the URL does not parse (the methods the
    client passes, GET and POST, are valid); the new request has an empty
    header. *)
Definition http_NewRequest `{Runtime}
    (method url : string) (body : option (list Byte.byte)) : result Request :=
  match url_Parse url with
  | Some err => Err err
  | None =>
      Ok {| Method := method; URL := url; ReqHeader := ∅; ReqBody := body |}
  end.

(** [req.Header] after in-place updates. *)
Definition with_Header (req : Request) (h : Header) : Request :=
  {| Method := Method req; URL := URL req; ReqHeader := h;
     ReqBody := ReqBody req |}.

(** ** Effects *)

(** A call into package [log]. *)
Inductive LogEntry : Type :=
  | Println (line : string)
  | Printf (format : string)
  | Println_value (v : TCBuildDetails.t).

(** The effects of the client so far: the requests handed to [client.Do],
    the calls into package [log], and the number of [range] statements
    executed. *)
Record State : Type := mkState {
  sent : list Request;
  logged : list LogEntry;
  ranges : nat
}.

Definition IO (A : Type) : Type := State → A * State.

#[global] Instance IO_ret : MRet IO := λ A a s, (a, s).
#[global] Instance IO_bind : MBind IO :=
  λ A B k m s, let '(a, s') := m s in k a s'.

(** [t.client.Do(req)]. *)
Definition client_Do `{Runtime}
    (c : http_Client) (req : Request) : IO (result Response) :=
  λ s, (RoundTrip c req,
        {| sent := sent s ++ [req]; logged := logged s; ranges := ranges s |}).

Definition log_call (e : LogEntry) : IO unit :=
  λ s, (tt, {| sent := sent s; logged := logged s ++ [e];
               ranges := ranges s |}).

(** The entries that a [for k, v := range m] statement visits, in
    order. *)
Definition range `{Runtime} {V : Type}
    (m : gmap string V) : IO (list (string * V)) :=
  λ s, (range_order (ranges s) V m,
        {| sent := sent s; logged := logged s; ranges := S (ranges s) |}).

(** ** The methods of [TCClient] *)

Section methods.
Context `{Runtime}.

(** [GetBuild]: the destination after the call and the returned error
    ([defer resp.Body.Close()] has no effect on either). *)
Definition GetBuild {D : Type} {U : Unmarshal D}
    (t : TCClient) (id : Z) (buildDetails : D) : IO (D * option error) :=
  match
    http_NewRequest "GET"
      (serverURL t +:+ "/app/rest/builds/id:" +:+ fmt_d id) None
  with
  | Err err => mret (buildDetails, Some err)
  | Ok req =>
      let h := setAuthorizationHeader t (ReqHeader req) in
      let h := Header_Add h "Accept" "application/json" in
      let h := Header_Add h "Content-Type" "application/json" in
      let req := with_Header req h in
      r ← client_Do (client t) req;
      match r with
      | Err err =>
          log_call (Println err);;
          mret (buildDetails, Some err)
      | Ok resp =>
          let '(body, err) := ioutil_ReadAll (Body resp) in
          match err with
          | Some err =>
              log_call (Println err);;
              mret (buildDetails, Some err)
          | None =>
              let '(buildDetails, err) := json_Unmarshal body buildDetails in
              match err with
              | Some err =>
                  log_call (Println err);;
                  mret (buildDetails, Some err)
              | None => mret (buildDetails, None)
              end
          end
      end
  end.

(** The three loops of [StartBuild]. *)
Definition add_params
    (payload : TCBuildPayload.t) (kvs : list (string * string))
    : TCBuildPayload.t :=
  foldl
    (λ payload kv,
       TCBuildPayload.set_Property payload
         (TCBuildProperties.Property (TCBuildPayload.Properties payload)
            ++ [TCBuildProperty.mk kv.1 kv.2]))
    payload kvs.

Definition add_dependencies
    (deps : TCBuildSnapshotDependencies.t) (kvs : list (string * Z))
    : TCBuildSnapshotDependencies.t :=
  foldl
    (λ deps kv,
       TCBuildSnapshotDependencies.mk
         (TCBuildSnapshotDependencies.Builds deps
            ++ [{| TCBuildDetails.ID := kv.2;
                   TCBuildDetails.BuildTypeID := kv.1 |}]))
    deps kvs.

(** Lines 104-146 of [StartBuild]: the trigger payload handed to
    [json.Marshal]. *)
Definition StartBuild_payload
    (buildTypeID branch comment : string)
    (params : gmap string string)
    (snapshotDependencies artifactDependencies : gmap string Z)
    : IO TCBuildPayload.t :=
  let payload :=
    {| TCBuildPayload.BuildType := {| TCBuildType.ID := buildTypeID |};
       TCBuildPayload.Comment := {| TCBuildComment.Text := comment |};
       TCBuildPayload.Properties := {| TCBuildProperties.Property := [] |};
       TCBuildPayload.Personal := "False";
       TCBuildPayload.BranchName := branch;
       TCBuildPayload.SnapshotDependencies := None;
       TCBuildPayload.ArtifactDependencies := None |} in
  kvs ← range params;
  let payload := add_params payload kvs in
  let snapDeps := {| TCBuildSnapshotDependencies.Builds := [] |} in
  let artfDeps := {| TCBuildSnapshotDependencies.Builds := [] |} in
  kvs ← range snapshotDependencies;
  let snapDeps := add_dependencies snapDeps kvs in
  kvs ← range artifactDependencies;
  let artfDeps := add_dependencies artfDeps kvs in
  let payload :=
    if (0 <? length (TCBuildSnapshotDependencies.Builds snapDeps))%nat
    then TCBuildPayload.set_SnapshotDependencies payload (Some snapDeps)
    else payload in
  let payload :=
    if (0 <? length (TCBuildSnapshotDependencies.Builds artfDeps))%nat
    then TCBuildPayload.set_ArtifactDependencies payload (Some artfDeps)
    else payload in
  mret payload.

(** [StartBuild]: the payload of lines 104-146, then lines 148-189. *)
Definition StartBuild
    (t : TCClient) (buildTypeID branch comment : string)
    (params : gmap string string)
    (snapshotDependencies artifactDependencies : gmap string Z)
    : IO (Z * option error) :=
  let buildDetails := TCBuildDetails.zero in
  payload ←
    StartBuild_payload buildTypeID branch comment params
      snapshotDependencies artifactDependencies;
  match json_Marshal payload with
  | Err err =>
      log_call (Println err);;
      mret (-1, Some err)
  | Ok requestPayload =>
      log_call (Println (string_of_list_byte requestPayload));;
      match
        http_NewRequest "POST" (serverURL t +:+ "/app/rest/buildQueue")
          (Some requestPayload)
      with
      | Err err => mret (-1, Some err)
      | Ok req =>
          let h := setAuthorizationHeader t (ReqHeader req) in
          let h := Header_Add h "Accept" "application/json" in
          let h := Header_Add h "Content-Type" "application/json" in
          let req := with_Header req h in
          r ← client_Do (client t) req;
          match r with
          | Err err =>
              log_call (Println err);;
              mret (-1, Some err)
          | Ok resp =>
              let '(body, err) := ioutil_ReadAll (Body resp) in
              match err with
              | Some err =>
                  log_call (Println err);;
                  mret (-1, Some err)
              | None =>
                  log_call (Printf (string_of_list_byte body));;
                  let '(buildDetails, err) :=
                    json_Unmarshal body buildDetails in
                  match err with
                  | Some err =>
                      log_call (Println err);;
                      mret (-1, Some err)
                  | None =>
                      log_call (Println_value buildDetails);;
                      mret (TCBuildDetails.ID buildDetails, None)
                  end
              end
          end
      end
  end.

Definition CancelQueuedBuild
    (t : TCClient) (id : Z) (comment : string) : IO (option error) :=
  let payload :=
    {| TCBuildStopPayload.Comment := comment;
       TCBuildStopPayload.ReaddIntoQueue := "false" |} in
  match json_Marshal payload with
  | Err err =>
      log_call (Println err);;
      mret (Some err)
  | Ok requestPayload =>
      log_call (Println (string_of_list_byte requestPayload));;
      match
        http_NewRequest "POST"
          (serverURL t +:+ "/app/rest/buildQueue/" +:+ fmt_d id)
          (Some requestPayload)
      with
      | Err err => mret (Some err)
      | Ok req =>
          let h := setAuthorizationHeader t (ReqHeader req) in
          let h := Header_Add h "Accept" "application/json" in
          let h := Header_Add h "Content-Type" "application/json" in
          let req := with_Header req h in
          r ← client_Do (client t) req;
          match r with
          | Err err =>
              log_call (Println err);;
              mret (Some err)
          | Ok resp =>
              let '(body, err) := ioutil_ReadAll (Body resp) in
              match err with
              | Some err =>
                  log_call (Println err);;
                  mret (Some err)
              | None =>
                  log_call (Println (string_of_list_byte body));;
                  mret None
              end
          end
      end
  end.

Definition StopBuild
    (t : TCClient) (id : Z) (comment : string) : IO (option error) :=
  let payload :=
    {| TCBuildStopPayload.Comment := comment;
       TCBuildStopPayload.ReaddIntoQueue := "false" |} in
  match json_Marshal payload with
  | Err err =>
      log_call (Println err);;
      mret (Some err)
  | Ok requestPayload =>
      log_call (Println (string_of_list_byte requestPayload));;
      match
        http_NewRequest "POST"
          (serverURL t +:+ "/app/rest/builds/" +:+ fmt_d id)
          (Some requestPayload)
      with
      | Err err => mret (Some err)
      | Ok req =>
          let h := setAuthorizationHeader t (ReqHeader req) in
          let h := Header_Add h "Accept" "application/json" in
          let h := Header_Add h "Content-Type" "application/json" in
          let req := with_Header req h in
          r ← client_Do (client t) req;
          match r with
          | Err err =>
              log_call (Println err);;
              mret (Some err)
          | Ok resp =>
              let '(body, err) := ioutil_ReadAll (Body resp) in
              match err with
              | Some err =>
                  log_call (Println err);;
                  mret (Some err)
              | None =>
                  log_call (Println (string_of_list_byte body));;
                  mret None
              end
          end
      end
  end.

(** [GetArtifactTextFile]: the nil slice of [var fileContent []byte] is
    the empty list. *)
Definition GetArtifactTextFile
    (t : TCClient) (path : string) (id : Z)
    : IO (list Byte.byte * string * option error) :=
  let fileContent : list Byte.byte := [] in
  match
    http_NewRequest "GET"
      (serverURL t +:+ "/app/rest/builds/id:" +:+ fmt_d id
         +:+ "/artifacts/content/" +:+ path) None
  with
  | Err err => mret ([], EmptyString, Some err)
  | Ok req =>
      let h := setAuthorizationHeader t (ReqHeader req) in
      let h := Header_Add h "Accept" "application/json" in
      let h := Header_Add h "Content-Type" "application/json" in
      let req := with_Header req h in
      r ← client_Do (client t) req;
      match r with
      | Err err =>
          log_call (Println err);;
          mret (fileContent, EmptyString, Some err)
      | Ok resp =>
          let '(fileContent, err) := ioutil_ReadAll (Body resp) in
          match err with
          | Some err =>
              log_call (Println err);;
              mret (fileContent, EmptyString, Some err)
          | None =>
              mret (fileContent,
                    Header_Get (RespHeader resp) "Content-Type", None)
          end
      end
  end.

(** The value of the local [requestURL] of [GetAllBuilds] when it is
    handed to [http.NewRequest]. *)
Definition GetAllBuilds_requestURL
    (t : TCClient) (params : TCQueryParams.t) : string :=
  let requestURL := serverURL t +:+ "/app/rest/builds/?locator=" in
  let requestURL :=
    if negb (String.eqb (TCQueryParams.BuildTypeID params) EmptyString)
    then requestURL
           +:+ ("buildType:(id:" +:+ TCQueryParams.BuildTypeID params +:+ "),")
    else requestURL in
  let requestURL :=
    if negb (String.eqb (TCQueryParams.Branch params) EmptyString)
    then requestURL
           +:+ ("branch:(name:" +:+ TCQueryParams.Branch params +:+ "),")
    else requestURL in
  let requestURL :=
    if negb (String.eqb (TCQueryParams.User params) EmptyString)
    then requestURL +:+ ("user:" +:+ TCQueryParams.User params +:+ ",")
    else requestURL in
  let requestURL :=
    if (0 <? TCQueryParams.Count params)%Z
    then requestURL
           +:+ ("count:" +:+ fmt_d (TCQueryParams.Count params) +:+ ",")
    else requestURL in
  let requestURL :=
    if (0 <? TCQueryParams.Start params)%Z
    then requestURL
           +:+ ("start:" +:+ fmt_d (TCQueryParams.Start params) +:+ ",")
    else requestURL in
  let requestURL :=
    if (0 <? TCQueryParams.LookupLimit params)%Z
    then requestURL
           +:+ ("lookupLimit:"
                  +:+ fmt_d (TCQueryParams.LookupLimit params) +:+ ",")
    else requestURL in
  let requestURL :=
    if TCQueryParams.Running params
    then requestURL
           +:+ ("running:" +:+ fmt_t (TCQueryParams.Running params) +:+ ",")
    else requestURL in
  let requestURL :=
    if TCQueryParams.Cancelled params
    then requestURL
           +:+ ("cancelled:"
                  +:+ fmt_t (TCQueryParams.Cancelled params) +:+ ",")
    else requestURL in
  requestURL.

Definition GetAllBuilds
    (t : TCClient) (params : TCQueryParams.t)
    : IO (TCBuildSnapshotDependencies.t * option error) :=
  let builds := TCBuildSnapshotDependencies.zero in
  let requestURL := GetAllBuilds_requestURL t params in
  match http_NewRequest "GET" requestURL None with
  | Err err => mret (builds, Some err)
  | Ok req =>
      let h := setAuthorizationHeader t (ReqHeader req) in
      let h := Header_Add h "Accept" "application/json" in
      let h := Header_Add h "Content-Type" "application/json" in
      let req := with_Header req h in
      r ← client_Do (client t) req;
      match r with
      | Err err => mret (builds, Some err)
      | Ok resp =>
          let '(respBody, err) := ioutil_ReadAll (Body resp) in
          match err with
          | Some err => mret (builds, Some err)
          | None =>
              let '(builds, err) := json_Unmarshal respBody builds in
              match err with
              | Some err => mret (builds, Some err)
              | None => mret (builds, None)
              end
          end
      end
  end.

End methods.

(** ** Specification-side definitions *)

(** The three headers every request carries when it leaves the client. *)
Definition api_headers (t : TCClient) : Header :=
  {[ "Authorization" := ["Bearer " +:+ token t];
     "Accept" := ["application/json"];
     "Content-Type" := ["application/json"] ]}.

(** A request of the client: method, URL, body and the three headers. *)
Definition api_request
    (t : TCClient) (method url : string) (body : option (list Byte.byte))
    : Request :=
  {| Method := method; URL := url; ReqHeader := api_headers t;
     ReqBody := body |}.

(** The locator in the spec's words: the filters in their fixed order,
    each with its presence test and its [key:value,] fragment; the
    locator is the concatenation of the fragments of the present ones. *)
Definition locator_filters (params : TCQueryParams.t) : list (bool * string) :=
  [ (negb (String.eqb (TCQueryParams.BuildTypeID params) EmptyString),
     "buildType:" +:+ "(id:" +:+ TCQueryParams.BuildTypeID params
       +:+ ")" +:+ ",");
    (negb (String.eqb (TCQueryParams.Branch params) EmptyString),
     "branch:" +:+ "(name:" +:+ TCQueryParams.Branch params +:+ ")" +:+ ",");
    (negb (String.eqb (TCQueryParams.User params) EmptyString),
     "user:" +:+ TCQueryParams.User params +:+ ",");
    ((0 <? TCQueryParams.Count params)%Z,
     "count:" +:+ fmt_d (TCQueryParams.Count params) +:+ ",");
    ((0 <? TCQueryParams.Start params)%Z,
     "start:" +:+ fmt_d (TCQueryParams.Start params) +:+ ",");
    ((0 <? TCQueryParams.LookupLimit params)%Z,
     "lookupLimit:" +:+ fmt_d (TCQueryParams.LookupLimit params) +:+ ",");
    (TCQueryParams.Running params, "running:" +:+ "true" +:+ ",");
    (TCQueryParams.Cancelled params, "cancelled:" +:+ "true" +:+ ",") ].

Definition locator_spec (params : TCQueryParams.t) : string :=
  foldr String.append EmptyString
    (snd <$> filter (λ f, fst f = true) (locator_filters params)).

(** The filter set whose every field has its zero value. *)
Definition no_filters : TCQueryParams.t :=
  {| TCQueryParams.BuildTypeID := EmptyString;
     TCQueryParams.Branch := EmptyString;
     TCQueryParams.User := EmptyString; TCQueryParams.Count := 0;
     TCQueryParams.Start := 0; TCQueryParams.LookupLimit := 0;
     TCQueryParams.Running := false; TCQueryParams.Cancelled := false |}.

(** The build reference of a dependency-map entry, and the property pair
    of a parameter-map entry. *)
Definition build_ref (kv : string * Z) : TCBuildDetails.t :=
  {| TCBuildDetails.ID := kv.2; TCBuildDetails.BuildTypeID := kv.1 |}.

Definition property_pair (kv : string * string) : TCBuildProperty.t :=
  {| TCBuildProperty.Name := kv.1; TCBuildProperty.Value := kv.2 |}.

(** A dependency block is attached exactly when the visited entries are
    not empty. *)
Definition dependency_block (kvs : list (string * Z))
    : option TCBuildSnapshotDependencies.t :=
  match kvs with
  | [] => None
  | _ :: _ => Some (TCBuildSnapshotDependencies.mk (build_ref <$> kvs))
  end.

(** The stop payload of the spec: the comment, re-queue fixed to false. *)
Definition stop_payload (comment : string) : TCBuildStopPayload.t :=
  {| TCBuildStopPayload.Comment := comment;
     TCBuildStopPayload.ReaddIntoQueue := "false" |}.

(** The stop/cancel contract in the spec's words, with the endpoint as a
    parameter: POST the stop payload to [{base}{endpoint}{id}] with the
    three headers; fail when marshaling, request construction, the
    network call or reading the body fails; log what the methods log;
    never look at the status or the body of the response. *)
Definition post_stop_payload `{Runtime}
    (endpoint : string) (t : TCClient) (id : Z) (comment : string)
    : IO (option error) :=
  match json_Marshal (stop_payload comment) with
  | Err err => log_call (Println err);; mret (Some err)
  | Ok bytes =>
      log_call (Println (string_of_list_byte bytes));;
      match url_Parse (serverURL t +:+ endpoint +:+ fmt_d id) with
      | Some err => mret (Some err)
      | None =>
          r ← client_Do (client t)
                (api_request t "POST" (serverURL t +:+ endpoint +:+ fmt_d id)
                   (Some bytes));
          match r with
          | Err err => log_call (Println err);; mret (Some err)
          | Ok resp =>
              match stream_err (Body resp) with
              | Some err => log_call (Println err);; mret (Some err)
              | None =>
                  log_call
                    (Println (string_of_list_byte (stream (Body resp))));;
                  mret None
              end
          end
      end
  end.

(** The same runtime, with the status code of every response replaced. *)
Definition with_status (f : Z → Z) (R : Runtime) : Runtime :=
  {| url_Parse := @url_Parse R;
     RoundTrip := λ c req,
       match @RoundTrip R c req with
       | Ok resp => Ok (mkResponse (f (StatusCode resp)) (RespHeader resp)
                          (Body resp))
       | Err e => Err e
       end;
     range_order := @range_order R;
     range_order_perm := @range_order_perm R;
     Marshal_TCBuildPayload := @Marshal_TCBuildPayload R;
     Marshal_TCBuildStopPayload := @Marshal_TCBuildStopPayload R;
     Unmarshal_TCBuildDetails := @Unmarshal_TCBuildDetails R;
     Unmarshal_TCBuildSnapshotDependencies :=
       @Unmarshal_TCBuildSnapshotDependencies R |}.

(** The same runtime, with the header of every response replaced. *)
Definition with_response_header
    (g : Header → Header) (R : Runtime) : Runtime :=
  {| url_Parse := @url_Parse R;
     RoundTrip := λ c req,
       match @RoundTrip R c req with
       | Ok resp => Ok (mkResponse (StatusCode resp) (g (RespHeader resp))
                          (Body resp))
       | Err e => Err e
       end;
     range_order := @range_order R;
     range_order_perm := @range_order_perm R;
     Marshal_TCBuildPayload := @Marshal_TCBuildPayload R;
     Marshal_TCBuildStopPayload := @Marshal_TCBuildStopPayload R;
     Unmarshal_TCBuildDetails := @Unmarshal_TCBuildDetails R;
     Unmarshal_TCBuildSnapshotDependencies :=
       @Unmarshal_TCBuildSnapshotDependencies R |}.

(** The same runtime, with other decoders for the response bodies. *)
Definition with_decoders
    (u1 : Unmarshal TCBuildDetails.t)
    (u2 : Unmarshal TCBuildSnapshotDependencies.t) (R : Runtime) : Runtime :=
  {| url_Parse := @url_Parse R;
     RoundTrip := @RoundTrip R;
     range_order := @range_order R;
     range_order_perm := @range_order_perm R;
     Marshal_TCBuildPayload := @Marshal_TCBuildPayload R;
     Marshal_TCBuildStopPayload := @Marshal_TCBuildStopPayload R;
     Unmarshal_TCBuildDetails := u1;
     Unmarshal_TCBuildSnapshotDependencies := u2 |}.

(** The ways [StartBuild] fails, in the spec's words. *)
Inductive StartBuild_fails `{Runtime}
    (t : TCClient) (payload : TCBuildPayload.t) : error → Prop :=
  | marshaling_fails e :
      json_Marshal payload = Err e →
      StartBuild_fails t payload e
  | request_construction_fails bytes e :
      json_Marshal payload = Ok bytes →
      http_NewRequest "POST" (serverURL t +:+ "/app/rest/buildQueue")
        (Some bytes) = Err e →
      StartBuild_fails t payload e
  | network_call_fails bytes e :
      json_Marshal payload = Ok bytes →
      url_Parse (serverURL t +:+ "/app/rest/buildQueue") = None →
      RoundTrip (client t)
        (api_request t "POST" (serverURL t +:+ "/app/rest/buildQueue")
           (Some bytes)) = Err e →
      StartBuild_fails t payload e
  | body_read_fails bytes resp e :
      json_Marshal payload = Ok bytes →
      url_Parse (serverURL t +:+ "/app/rest/buildQueue") = None →
      RoundTrip (client t)
        (api_request t "POST" (serverURL t +:+ "/app/rest/buildQueue")
           (Some bytes)) = Ok resp →
      (ioutil_ReadAll (Body resp)).2 = Some e →
      StartBuild_fails t payload e
  | body_not_json bytes resp e :
      json_Marshal payload = Ok bytes →
      url_Parse (serverURL t +:+ "/app/rest/buildQueue") = None →
      RoundTrip (client t)
        (api_request t "POST" (serverURL t +:+ "/app/rest/buildQueue")
           (Some bytes)) = Ok resp →
      (ioutil_ReadAll (Body resp)).2 = None →
      (json_Unmarshal (ioutil_ReadAll (Body resp)).1 TCBuildDetails.zero).2
        = Some e →
      StartBuild_fails t payload e.

(** The ways [GetArtifactTextFile] fails, in the spec's words. *)
Inductive GetArtifactTextFile_fails `{Runtime}
    (t : TCClient) (url : string) : error → Prop :=
  | artifact_request_construction_fails e :
      http_NewRequest "GET" url None = Err e →
      GetArtifactTextFile_fails t url e
  | artifact_network_call_fails e :
      url_Parse url = None →
      RoundTrip (client t) (api_request t "GET" url None) = Err e →
      GetArtifactTextFile_fails t url e
  | artifact_body_read_fails resp e :
      url_Parse url = None →
      RoundTrip (client t) (api_request t "GET" url None) = Ok resp →
      (ioutil_ReadAll (Body resp)).2 = Some e →
      GetArtifactTextFile_fails t url e.

(** No filter of the set is present: the strings are empty, the counts
    are zero or negative, the flags are false. *)
Definition no_filter_present (params : TCQueryParams.t) : Prop :=
  TCQueryParams.BuildTypeID params = EmptyString
  ∧ TCQueryParams.Branch params = EmptyString
  ∧ TCQueryParams.User params = EmptyString
  ∧ (TCQueryParams.Count params ≤ 0)%Z
  ∧ (TCQueryParams.Start params ≤ 0)%Z
  ∧ (TCQueryParams.LookupLimit params ≤ 0)%Z
  ∧ TCQueryParams.Running params = false
  ∧ TCQueryParams.Cancelled params = false.

(** What one call of a method may add to the effects: at most one
    request, with the given method, the three headers and a body exactly
    when it is not a GET, after the requests already sent; and log
    lines after the lines already logged. *)
Definition one_call
    (t : TCClient) (method : string) (s s' : State) : Prop :=
  ∃ (new : list Request) (lines : list LogEntry),
    sent s' = sent s ++ new
    ∧ logged s' = logged s ++ lines
    ∧ (length new ≤ 1)%nat
    ∧ Forall
        (λ r, Method r = method ∧ ReqHeader r = api_headers t
              ∧ (ReqBody r = None ↔ method = "GET"))
        new.

(** Unfold the effect layer of a method body. *)
Ltac run_io :=
  unfold mbind, IO_bind, mret, IO_ret, client_Do, log_call, range,
    ioutil_ReadAll in *;
  simpl in *.

(** Combine the equations known about one oracle call. *)
Ltac same_oracle :=
  repeat match goal with
  | H1 : ?x = ?a, H2 : ?x = ?b |- _ =>
      rewrite H1 in H2; simplify_eq/=
  | H1 : ?x = _, H2 : context [match ?x with _ => _ end] |- _ =>
      rewrite H1 in H2; simplify_eq/=
  | H1 : ?x = _, H2 : context [?x.2] |- _ =>
      rewrite H1 in H2; simplify_eq/=
  end.

(** Close a goal [one_call t m s s'] for an explicit final state. *)
Ltac close_one_call :=
  unfold one_call; simpl; rewrite <- ?app_assoc; simpl;
  eexists _, _;
  split_and!;
  [ first [reflexivity | symmetry; apply app_nil_r]
  | first [reflexivity | symmetry; apply app_nil_r]
  | simpl; lia
  | repeat constructor; simpl; done ].

(** ** A concrete runtime, for running the client on examples *)

Module Demo.

Definition bytes (s : string) : list Byte.byte := list_byte_of_string s.

(** A server that answers every request with status 500, the empty
    JSON object as body and a [text/plain] content type. *)
Definition server (c : http_Client) (req : Request) : result Response :=
  Ok {| StatusCode := 500;
        RespHeader := {[ "Content-Type" := ["text/plain"] ]};
        Body := {| stream := bytes "{}"; stream_err := None |} |}.

(** Decoders that accept exactly the body above, which sets no field. *)
Definition decode_details : Unmarshal TCBuildDetails.t :=
  λ body d,
    if String.eqb (string_of_list_byte body) "{}"
    then (d, None)
    else (d, Some "invalid character").

Definition decode_builds : Unmarshal TCBuildSnapshotDependencies.t :=
  λ body d,
    if String.eqb (string_of_list_byte body) "{}"
    then (d, None)
    else (d, Some "invalid character").

Definition encode_payload : Marshal TCBuildPayload.t :=
  λ p, Ok (bytes (TCBuildType.ID (TCBuildPayload.BuildType p))).

Definition encode_stop : Marshal TCBuildStopPayload.t :=
  λ p, Ok (bytes (TCBuildStopPayload.Comment p +:+ ":"
                    +:+ TCBuildStopPayload.ReaddIntoQueue p)).

Definition runtime : Runtime :=
  {| url_Parse := λ _, None;
     RoundTrip := server;
     range_order := λ _ V m, map_to_list m;
     range_order_perm := λ _ V m, reflexivity (map_to_list m);
     Marshal_TCBuildPayload := encode_payload;
     Marshal_TCBuildStopPayload := encode_stop;
     Unmarshal_TCBuildDetails := decode_details;
     Unmarshal_TCBuildSnapshotDependencies := decode_builds |}.

Definition tc : TCClient :=
  NewTeamcityClient 30 10 10 "https://ci.example.org" "abc123" false.

Definition s0 : State := {| sent := []; logged := []; ranges := 0 |}.

End Demo.

(** ** Runtimes in which something goes wrong *)

Module Scenario.

(** A URL parser that rejects a URL without scheme. *)
Definition parse_scheme (u : string) : option error :=
  if String.prefix "http" u then None else Some "missing protocol scheme".

(** A network that is down. *)
Definition down (c : http_Client) (req : Request) : result Response :=
  Err "connection refused".

(** A server whose response breaks off after three bytes. *)
Definition truncated (c : http_Client) (req : Request) : result Response :=
  Ok {| StatusCode := 200;
        RespHeader := ∅;
        Body := {| stream := Demo.bytes "par";
                   stream_err := Some "unexpected EOF" |} |}.

(** A server that answers with a body that does not decode. *)
Definition garbage (c : http_Client) (req : Request) : result Response :=
  Ok {| StatusCode := 404;
        RespHeader := {[ "Content-Type" := ["text/html"; "text/plain"] ]};
        Body := {| stream := Demo.bytes "<html>"; stream_err := None |} |}.

(** The runtime of [Demo], with another URL parser and network. *)
Definition make
    (parse : string → option error)
    (net : http_Client → Request → result Response) : Runtime :=
  {| url_Parse := parse;
     RoundTrip := net;
     range_order := λ _ V m, map_to_list m;
     range_order_perm := λ _ V m, reflexivity (map_to_list m);
     Marshal_TCBuildPayload := Demo.encode_payload;
     Marshal_TCBuildStopPayload := Demo.encode_stop;
     Unmarshal_TCBuildDetails := Demo.decode_details;
     Unmarshal_TCBuildSnapshotDependencies := Demo.decode_builds |}.

(** A client whose server URL has no scheme. *)
Definition tc_no_scheme : TCClient :=
  NewTeamcityClient 30 10 10 "ci.example.org" "abc123" false.

End Scenario.
(** ** Strings: slicing a concatenation *)

Section string_facts.

Lemma slice_to_app (p s : string) :
  slice_to (String.length p) (p +:+ s) = p.
Proof.
  unfold slice_to. induction p as [|a p IH]; simpl.
  - by destruct s.
  - by rewrite IH.
Qed.

Lemma append_length (p s : string) :
  String.length (p +:+ s) = (String.length p + String.length s)%nat.
Proof. induction p as [|a p IH]; simpl; [done | by rewrite IH]. Qed.

Lemma substring_all (s : string) :
  String.substring 0 (String.length s) s = s.
Proof. induction s as [|a s IH]; simpl; [done | by rewrite IH]. Qed.

Lemma slice_from_app (p s : string) :
  slice_from (String.length p) (p +:+ s) = s.
Proof.
  unfold slice_from. rewrite append_length.
  replace (String.length p + String.length s - String.length p)%nat
    with (String.length s) by lia.
  induction p as [|a p IH]; simpl; [apply substring_all | apply IH].
Qed.

Lemma HasPrefix_app (p s : string) : HasPrefix (p +:+ s) p = true.
Proof.
  unfold HasPrefix. rewrite slice_to_app, String.eqb_refl, append_length.
  rewrite andb_true_r. apply Nat.leb_le. lia.
Qed.

Lemma TrimPrefix_app (p s : string) : TrimPrefix (p +:+ s) p = s.
Proof. unfold TrimPrefix. by rewrite HasPrefix_app, slice_from_app. Qed.

Lemma TrimPrefix_absent (s p : string) :
  HasPrefix s p = false → TrimPrefix s p = s.
Proof. unfold TrimPrefix. by intros ->. Qed.

Lemma HasPrefix_inv (s p : string) :
  HasPrefix s p = true → s = p +:+ TrimPrefix s p.
Proof.
  unfold TrimPrefix, HasPrefix, slice_to.
  intros H. rewrite H. apply andb_true_iff in H as [_ H].
  apply String.eqb_eq in H. revert s H.
  induction p as [|a p IH]; intros s H; simpl in *.
  - unfold slice_from. rewrite Nat.sub_0_r. by rewrite substring_all.
  - destruct s as [|b s]; [done|]. simpl in *.
    injection H as -> H.
    change (String a s = String a (p +:+ slice_from (String.length p) s)).
    f_equal. by apply IH.
Qed.

Lemma append_assoc (a b c : string) : (a +:+ b) +:+ c = a +:+ (b +:+ c).
Proof.
  induction a as [|x a IH]; [done|].
  change (String x ((a +:+ b) +:+ c) = String x (a +:+ (b +:+ c))).
  by rewrite IH.
Qed.

Lemma append_empty_r (a : string) : a +:+ EmptyString = a.
Proof.
  induction a as [|x a IH]; [done|].
  change (String x (a +:+ EmptyString) = String x a). by rewrite IH.
Qed.

End string_facts.

(** ** The authorization header *)

Section headers.

Lemma Header_Add_fresh (h : Header) (k v : string) :
  h !! k = None → Header_Add h k v = <[k := [v]]> h.
Proof. unfold Header_Add. by intros ->. Qed.

(** The three header statements of every method, on the empty header
    of a new request. *)
Lemma request_headers (t : TCClient) :
  Header_Add
    (Header_Add (setAuthorizationHeader t ∅) "Accept" "application/json")
    "Content-Type" "application/json"
  = api_headers t.
Proof.
  unfold setAuthorizationHeader, api_headers.
  rewrite !Header_Add_fresh by by simplify_map_eq.
  apply map_eq. intros k.
  destruct (decide (k = "Authorization")) as [->|];
    [by simplify_map_eq|].
  destruct (decide (k = "Accept")) as [->|]; [by simplify_map_eq|].
  destruct (decide (k = "Content-Type")) as [->|]; by simplify_map_eq.
Qed.

Lemma authorization_sent (t : TCClient) :
  Header_Get (api_headers t) "Authorization" = "Bearer " +:+ token t.
Proof. unfold Header_Get, api_headers. by simplify_map_eq. Qed.

Lemma token_NewTeamcityClient rt dt tt url tok ins :
  token (NewTeamcityClient rt dt tt url tok ins) = TrimPrefix tok "Bearer ".
Proof. done. Qed.

End headers.

(** C2, as the claim states it, fails on a token that itself starts with
    the prefix: the constructor strips one [Bearer ] only, so the client
    built from ["Bearer abc"] sends [Bearer abc] while the client built
    from ["Bearer " + "Bearer abc"] sends [Bearer Bearer abc]. *)
Lemma bearer_prefixed_token_differs :
  setAuthorizationHeader
    (NewTeamcityClient 30 10 10 "https://ci" "Bearer abc" false) ∅
  ≠ setAuthorizationHeader
      (NewTeamcityClient 30 10 10 "https://ci" ("Bearer " +:+ "Bearer abc")
         false) ∅.
Proof.
  intros Heq.
  assert (Hl : ∀ h1 h2 : Header, h1 = h2 →
            h1 !! "Authorization" = h2 !! "Authorization") by by intros ?? ->.
  apply Hl in Heq. vm_compute in Heq. discriminate Heq.
Qed.

(** C2 (amended): for every token [tok] that does not itself begin with
    [Bearer ], the client constructed from [tok] and the client
    constructed from ["Bearer " + tok] are the same client, so every
    request of either carries the same Authorization header, namely
    [Bearer ] followed by [tok]; in general the constructor strips one
    leading [Bearer ] and [setAuthorizationHeader] adds [Bearer ] to the
    stored token. *)
Theorem bearer_prefix_normalized
    (rt dt tt : Z) (url tok : string) (ins : bool) (h : Header) :
  HasPrefix tok "Bearer " = false →
  NewTeamcityClient rt dt tt url ("Bearer " +:+ tok) ins
    = NewTeamcityClient rt dt tt url tok ins
  ∧ setAuthorizationHeader
      (NewTeamcityClient rt dt tt url ("Bearer " +:+ tok) ins) h
    = setAuthorizationHeader (NewTeamcityClient rt dt tt url tok ins) h
  ∧ setAuthorizationHeader (NewTeamcityClient rt dt tt url tok ins) h
    = Header_Add h "Authorization"
        ("Bearer " +:+ TrimPrefix tok "Bearer ")
  ∧ TrimPrefix tok "Bearer " = tok
  ∧ Header_Get
      (ReqHeader
         (api_request (NewTeamcityClient rt dt tt url ("Bearer " +:+ tok) ins)
            "GET" url None))
      "Authorization"
    = "Bearer " +:+ tok.
Proof.
  intros Hno.
  assert (Heq : NewTeamcityClient rt dt tt url ("Bearer " +:+ tok) ins
                = NewTeamcityClient rt dt tt url tok ins).
  { unfold NewTeamcityClient. simpl.
    by rewrite TrimPrefix_app, (TrimPrefix_absent tok). }
  split_and!; [done | by rewrite Heq | done | by apply TrimPrefix_absent |].
  simpl. rewrite authorization_sent, token_NewTeamcityClient.
  by rewrite TrimPrefix_app.
Qed.

Lemma bearer_prefix_normalized_witness :
  HasPrefix "abc123" "Bearer " = false
  ∧ Header_Get
      (ReqHeader
         (api_request
            (NewTeamcityClient 30 10 10 "https://ci" ("Bearer " +:+ "abc123")
               false)
            "GET" "https://ci" None))
      "Authorization"
    = "Bearer abc123"
  ∧ NewTeamcityClient 30 10 10 "https://ci" ("Bearer " +:+ "abc123") false
    = NewTeamcityClient 30 10 10 "https://ci" "abc123" false.
Proof.
  assert (Hno : HasPrefix "abc123" "Bearer " = false) by reflexivity.
  pose proof (bearer_prefix_normalized 30 10 10 "https://ci" "abc123" false
                ∅ Hno) as (Hc & _ & _ & _ & Hh).
  split_and!; [exact Hno | exact Hh | exact Hc].
Defined.

(** ** Running a method: the request that leaves the client *)

Section requests.
Context `{Runtime}.

(** A new request after the three header statements. *)
Lemma new_request_with_headers
    (t : TCClient) (method url : string) (body : option (list Byte.byte))
    (req : Request) :
  http_NewRequest method url body = Ok req →
  url_Parse url = None
  ∧ with_Header req
      (Header_Add
         (Header_Add (setAuthorizationHeader t (ReqHeader req))
            "Accept" "application/json")
         "Content-Type" "application/json")
    = api_request t method url body.
Proof.
  unfold http_NewRequest. destruct (url_Parse url); [done|].
  intros [= <-]. split; [done|].
  unfold with_Header, api_request. simpl. by rewrite request_headers.
Qed.

Lemma headers_of_new_request
    (t : TCClient) (method url : string) (body : option (list Byte.byte)) :
  with_Header
    {| Method := method; URL := url; ReqHeader := ∅; ReqBody := body |}
    (Header_Add
       (Header_Add (setAuthorizationHeader t ∅) "Accept" "application/json")
       "Content-Type" "application/json")
  = api_request t method url body.
Proof.
  unfold with_Header, api_request. simpl. by rewrite request_headers.
Qed.

Lemma new_request_ok (method url : string) body :
  url_Parse url = None →
  http_NewRequest method url body
  = Ok {| Method := method; URL := url; ReqHeader := ∅; ReqBody := body |}.
Proof. unfold http_NewRequest. by intros ->. Qed.

End requests.

(** ** The locator of [GetAllBuilds] *)

Section locator.
Context `{Runtime}.

(** Appending the present fragments one by one is appending their
    concatenation. *)
Lemma append_fragments (base : string) (l : list (bool * string)) :
  foldl (λ (url : string) (f : bool * string),
           if f.1 then url +:+ f.2 else url) base l
  = base +:+ foldr String.append EmptyString
               (snd <$> filter (λ f, fst f = true) l).
Proof.
  revert base. induction l as [|[b frag] l IH]; intros base; simpl.
  - by rewrite append_empty_r.
  - rewrite IH. destruct b; simpl; [by rewrite append_assoc | done].
Qed.

Lemma requestURL_locator (t : TCClient) (params : TCQueryParams.t) :
  GetAllBuilds_requestURL t params
  = (serverURL t +:+ "/app/rest/builds/?locator=") +:+ locator_spec params.
Proof.
  unfold locator_spec. rewrite <- append_fragments.
  unfold GetAllBuilds_requestURL, locator_filters.
  destruct (TCQueryParams.Running params), (TCQueryParams.Cancelled params);
    reflexivity.
Qed.

(** When the URL parses, [GetAllBuilds] hands exactly one request to
    the network: a GET of [requestURL] with the three headers. *)
Lemma GetAllBuilds_sent
    (t : TCClient) (params : TCQueryParams.t) (s : State) :
  url_Parse (GetAllBuilds_requestURL t params) = None →
  sent (GetAllBuilds t params s).2
  = sent s ++ [api_request t "GET" (GetAllBuilds_requestURL t params) None].
Proof.
  intros Hurl. unfold GetAllBuilds.
  pose proof (new_request_ok "GET" _ None Hurl) as Hreq.
  rewrite Hreq.
  apply (new_request_with_headers t) in Hreq as [_ ->].
  run_io. repeat case_match; reflexivity.
Qed.

End locator.

(** C3: for every filter set, the URL that [GetAllBuilds] requests is
    [{base}/app/rest/builds/?locator=] followed by one [key:value,]
    fragment per present filter (non-empty string, positive
    count/start/lookupLimit, true flag), in the order buildType, branch,
    user, count, start, lookupLimit, running, cancelled, trailing comma
    included; [{BuildTypeID:"bt1", Count:5}] gives the locator
    [buildType:(id:bt1),count:5,]; and that URL is the one of the GET
    request handed to the network. *)
Theorem GetAllBuilds_locator_fragments
    `{Runtime} (t : TCClient) (params : TCQueryParams.t) (s : State) :
  GetAllBuilds_requestURL t params
  = serverURL t +:+ "/app/rest/builds/?locator=" +:+ locator_spec params
  ∧ locator_spec
      {| TCQueryParams.BuildTypeID := "bt1";
         TCQueryParams.Branch := EmptyString;
         TCQueryParams.User := EmptyString;
         TCQueryParams.Count := 5; TCQueryParams.Start := 0;
         TCQueryParams.LookupLimit := 0; TCQueryParams.Running := false;
         TCQueryParams.Cancelled := false |}
    = "buildType:(id:bt1),count:5,"
  ∧ GetAllBuilds_requestURL t
      {| TCQueryParams.BuildTypeID := "bt1";
         TCQueryParams.Branch := EmptyString;
         TCQueryParams.User := EmptyString;
         TCQueryParams.Count := 5; TCQueryParams.Start := 0;
         TCQueryParams.LookupLimit := 0; TCQueryParams.Running := false;
         TCQueryParams.Cancelled := false |}
    = serverURL t
        +:+ "/app/rest/builds/?locator=buildType:(id:bt1),count:5,"
  ∧ (url_Parse (GetAllBuilds_requestURL t params) = None →
     sent (GetAllBuilds t params s).2
     = sent s
       ++ [api_request t "GET"
             (serverURL t +:+ "/app/rest/builds/?locator="
                +:+ locator_spec params) None]).
Proof.
  split_and!.
  - by rewrite requestURL_locator, append_assoc.
  - reflexivity.
  - rewrite requestURL_locator, append_assoc. reflexivity.
  - intros Hurl. rewrite (GetAllBuilds_sent t params s Hurl).
    by rewrite requestURL_locator, append_assoc.
Qed.

Lemma GetAllBuilds_locator_fragments_witness :
  sent
    (GetAllBuilds (H := Demo.runtime) Demo.tc
       {| TCQueryParams.BuildTypeID := "bt1";
          TCQueryParams.Branch := EmptyString;
          TCQueryParams.User := EmptyString;
          TCQueryParams.Count := 5; TCQueryParams.Start := 0;
          TCQueryParams.LookupLimit := 0; TCQueryParams.Running := false;
          TCQueryParams.Cancelled := false |} Demo.s0).2
  = [api_request Demo.tc "GET"
       "https://ci.example.org/app/rest/builds/?locator=buildType:(id:bt1),count:5,"
       None].
Proof.
  apply (GetAllBuilds_locator_fragments (H := Demo.runtime)). reflexivity.
Defined.

(** C10: with every filter at its zero value, the URL that
    [GetAllBuilds] requests is exactly [{base}/app/rest/builds/?locator=]
    (an empty locator: no fragment, no comma, the [locator] parameter
    still there), and whenever that URL parses the method hands one GET
    of it to the network. *)
Theorem GetAllBuilds_no_filters `{Runtime} (t : TCClient) (s : State) :
  GetAllBuilds_requestURL t no_filters
  = serverURL t +:+ "/app/rest/builds/?locator="
  ∧ locator_spec no_filters = EmptyString
  ∧ (url_Parse (serverURL t +:+ "/app/rest/builds/?locator=") = None →
     sent (GetAllBuilds t no_filters s).2
     = sent s
       ++ [api_request t "GET"
             (serverURL t +:+ "/app/rest/builds/?locator=") None]).
Proof.
  split_and!; [reflexivity | reflexivity |].
  intros Hurl. by rewrite GetAllBuilds_sent.
Qed.

Lemma GetAllBuilds_no_filters_witness :
  sent (GetAllBuilds (H := Demo.runtime) Demo.tc no_filters Demo.s0).2
  = [api_request Demo.tc "GET"
       "https://ci.example.org/app/rest/builds/?locator=" None].
Proof.
  apply (GetAllBuilds_no_filters (H := Demo.runtime)). reflexivity.
Defined.

(** ** The trigger payload of [StartBuild] *)

Section payload.
Context `{Runtime}.

Lemma add_params_Property payload (kvs : list (string * string)) :
  add_params payload kvs
  = TCBuildPayload.set_Property payload
      (TCBuildProperties.Property (TCBuildPayload.Properties payload)
         ++ (property_pair <$> kvs)).
Proof.
  revert payload. induction kvs as [|kv kvs IH]; intros payload; simpl.
  - rewrite app_nil_r. by destruct payload as [? ? [?] ? ? ? ?].
  - rewrite IH. simpl. by rewrite <- app_assoc.
Qed.

Lemma add_dependencies_Builds deps (kvs : list (string * Z)) :
  add_dependencies deps kvs
  = TCBuildSnapshotDependencies.mk
      (TCBuildSnapshotDependencies.Builds deps ++ (build_ref <$> kvs)).
Proof.
  revert deps. induction kvs as [|kv kvs IH]; intros deps; simpl.
  - rewrite app_nil_r. by destruct deps.
  - rewrite IH. simpl. by rewrite <- app_assoc.
Qed.

(** The payload, field by field, and the state after its
    construction: three [range] statements were executed. *)
Lemma StartBuild_payload_run
    (bt br c : string) (ps : gmap string string) (sn ar : gmap string Z)
    (s : State) :
  StartBuild_payload bt br c ps sn ar s
  = ({| TCBuildPayload.BuildType := {| TCBuildType.ID := bt |};
        TCBuildPayload.Comment := {| TCBuildComment.Text := c |};
        TCBuildPayload.Properties :=
          {| TCBuildProperties.Property :=
               property_pair <$> range_order (ranges s) _ ps |};
        TCBuildPayload.Personal := "False";
        TCBuildPayload.BranchName := br;
        TCBuildPayload.SnapshotDependencies :=
          dependency_block (range_order (S (ranges s)) _ sn);
        TCBuildPayload.ArtifactDependencies :=
          dependency_block (range_order (S (S (ranges s))) _ ar) |},
     {| sent := sent s; logged := logged s;
        ranges := S (S (S (ranges s))) |}).
Proof.
  unfold StartBuild_payload. run_io.
  rewrite add_params_Property, !add_dependencies_Builds. simpl.
  destruct (range_order (S (ranges s)) Z sn),
    (range_order (S (S (ranges s))) Z ar); reflexivity.
Qed.

Lemma range_order_nil {V} (n : nat) (m : gmap string V) :
  range_order n V m = [] ↔ m = ∅.
Proof.
  rewrite <- (map_to_list_empty_iff m).
  pose proof (range_order_perm n V m) as Hp.
  split; intros Hnil; rewrite Hnil in Hp.
  - by apply Permutation_nil_l in Hp.
  - by apply Permutation_nil_r in Hp.
Qed.

(** What a dependency block holds, in terms of the map it came from. *)
Lemma dependency_block_spec (n : nat) (m : gmap string Z) :
  match dependency_block (range_order n _ m) with
  | None => m = ∅
  | Some deps =>
      m ≠ ∅
      ∧ TCBuildSnapshotDependencies.Builds deps
          ≡ₚ build_ref <$> map_to_list m
      ∧ ∀ k id, m !! k = Some id
          ↔ {| TCBuildDetails.ID := id; TCBuildDetails.BuildTypeID := k |}
              ∈ TCBuildSnapshotDependencies.Builds deps
  end.
Proof.
  destruct (range_order n _ m) as [|kv kvs] eqn:Hr; simpl.
  - by apply range_order_nil in Hr.
  - assert (Hp : kv :: kvs ≡ₚ map_to_list m)
      by (rewrite <- Hr; apply range_order_perm).
    split_and!.
    + intros Hm. apply (range_order_nil n) in Hm. congruence.
    + change (build_ref <$> kv :: kvs ≡ₚ build_ref <$> map_to_list m).
      by rewrite Hp.
    + intros k id.
      change (m !! k = Some id
              ↔ build_ref (k, id) ∈ build_ref <$> kv :: kvs).
      rewrite Hp, <- elem_of_map_to_list. split.
      * intros Hin. by apply list_elem_of_fmap_2.
      * intros ([k' id'] & [= -> ->] & Hin)%list_elem_of_fmap. done.
Qed.

(** When the payload marshals and the URL parses, [StartBuild] hands
    one request to the network: a POST of the marshalled payload to the
    build queue. *)
Lemma StartBuild_sent
    (t : TCClient) (bt br c : string)
    (ps : gmap string string) (sn ar : gmap string Z) (s : State)
    (bytes : list Byte.byte) :
  json_Marshal (StartBuild_payload bt br c ps sn ar s).1 = Ok bytes →
  url_Parse (serverURL t +:+ "/app/rest/buildQueue") = None →
  sent (StartBuild t bt br c ps sn ar s).2
  = sent s
    ++ [api_request t "POST" (serverURL t +:+ "/app/rest/buildQueue")
          (Some bytes)].
Proof.
  intros Hm Hu. unfold StartBuild.
  unfold mbind at 1. unfold IO_bind at 1.
  rewrite StartBuild_payload_run in *. simpl in Hm. rewrite Hm.
  rewrite (new_request_ok "POST" _ _ Hu).
  run_io. rewrite headers_of_new_request.
  repeat case_match; reflexivity.
Qed.

End payload.

(** C4: the payload of [StartBuild] has a snapshot-dependency block if
    and only if the snapshot-dependency map is not empty, and likewise
    for the artifact dependencies; for an empty map the field is absent
    ([nil]), never a block with an empty list; the block of a non-empty
    map lists, for each entry [buildTypeID: id] and nothing else, the
    build reference with that id and build-type ID. That payload is what
    is marshalled into the body of the POST to the build queue. *)
Theorem StartBuild_dependency_blocks
    `{Runtime} (t : TCClient) (bt br c : string)
    (ps : gmap string string) (sn ar : gmap string Z) (s : State) :
  let payload := (StartBuild_payload bt br c ps sn ar s).1 in
  (∀ bytes, json_Marshal payload = Ok bytes →
     url_Parse (serverURL t +:+ "/app/rest/buildQueue") = None →
     sent (StartBuild t bt br c ps sn ar s).2
     = sent s
       ++ [api_request t "POST" (serverURL t +:+ "/app/rest/buildQueue")
             (Some bytes)])
  ∧ (is_Some (TCBuildPayload.SnapshotDependencies payload) ↔ sn ≠ ∅)
  ∧ (is_Some (TCBuildPayload.ArtifactDependencies payload) ↔ ar ≠ ∅)
  ∧ TCBuildPayload.SnapshotDependencies payload
      ≠ Some (TCBuildSnapshotDependencies.mk [])
  ∧ TCBuildPayload.ArtifactDependencies payload
      ≠ Some (TCBuildSnapshotDependencies.mk [])
  ∧ (∀ deps, TCBuildPayload.SnapshotDependencies payload = Some deps →
       TCBuildSnapshotDependencies.Builds deps
         ≡ₚ build_ref <$> map_to_list sn
       ∧ ∀ k id, sn !! k = Some id
           ↔ {| TCBuildDetails.ID := id; TCBuildDetails.BuildTypeID := k |}
               ∈ TCBuildSnapshotDependencies.Builds deps)
  ∧ (∀ deps, TCBuildPayload.ArtifactDependencies payload = Some deps →
       TCBuildSnapshotDependencies.Builds deps
         ≡ₚ build_ref <$> map_to_list ar
       ∧ ∀ k id, ar !! k = Some id
           ↔ {| TCBuildDetails.ID := id; TCBuildDetails.BuildTypeID := k |}
               ∈ TCBuildSnapshotDependencies.Builds deps).
Proof.
  intros payload. subst payload.
  split; [intros bytes; apply StartBuild_sent|].
  rewrite StartBuild_payload_run. simpl.
  pose proof (dependency_block_spec (S (ranges s)) sn) as Hsn.
  pose proof (dependency_block_spec (S (S (ranges s))) ar) as Har.
  destruct (dependency_block (range_order (S (ranges s)) Z sn))
    as [dsn|] eqn:Esn;
  destruct (dependency_block (range_order (S (S (ranges s))) Z ar))
    as [dar|] eqn:Ear;
  repeat match goal with
         | H : _ ∧ _ |- _ => destruct H as [? H]
         end;
  split_and!;
  try (split; intros; by eauto);
  try (split; [by intros [? [=]] | done]);
  try (intros deps [= <-]; by split);
  try done;
  intros [= ->];
  match goal with
  | H : TCBuildSnapshotDependencies.Builds _ ≡ₚ _, Hne : ?m ≠ ∅ |- _ =>
      simpl in H; symmetry in H; apply Permutation_nil_r in H;
      try (apply fmap_nil_inv in H; by apply map_to_list_empty_iff in H)
  end.
Qed.

Lemma StartBuild_dependency_blocks_witness :
  TCBuildPayload.SnapshotDependencies
    (StartBuild_payload (H := Demo.runtime) "bt" "main" "nightly" ∅
       {[ "BuildTypeA" := 42 ]} ∅ Demo.s0).1
  = Some (TCBuildSnapshotDependencies.mk
            [ {| TCBuildDetails.ID := 42;
                 TCBuildDetails.BuildTypeID := "BuildTypeA" |} ])
  ∧ TCBuildPayload.ArtifactDependencies
      (StartBuild_payload (H := Demo.runtime) "bt" "main" "nightly" ∅
         {[ "BuildTypeA" := 42 ]} ∅ Demo.s0).1
    = None
  ∧ sent
      (StartBuild (H := Demo.runtime) Demo.tc "bt" "main" "nightly" ∅
         {[ "BuildTypeA" := 42 ]} ∅ Demo.s0).2
    = [api_request Demo.tc "POST" "https://ci.example.org/app/rest/buildQueue"
         (Some (Demo.bytes "bt"))].
Proof.
  pose proof (StartBuild_dependency_blocks (H := Demo.runtime) Demo.tc
                "bt" "main" "nightly" ∅ {[ "BuildTypeA" := 42 ]} ∅ Demo.s0)
    as (Hsent & _ & Har & _ & _ & _ & _).
  split_and!.
  - vm_compute. reflexivity.
  - destruct (TCBuildPayload.ArtifactDependencies _) as [d|] eqn:Hd;
      [|reflexivity].
    exfalso. by apply Har.
  - apply Hsent; reflexivity.
Defined.

(** C5: the property list of the payload that [StartBuild] marshals and
    posts holds exactly one name/value pair per entry of the parameter
    map and nothing else, in the order the runtime visits the map (a
    permutation of the map's entries); the map [{"KEY": "VALUE"}] with
    empty dependency maps gives the single property
    [{name: "KEY", value: "VALUE"}] and no dependency block. The payload
    is the one of [StartBuild]: the body of the POST that [StartBuild]
    sends to the build queue is that payload marshalled, and a
    marshaling error of that payload is the error [StartBuild]
    returns. *)
Theorem StartBuild_properties
    `{Runtime} (t : TCClient) (bt br c : string)
    (ps : gmap string string) (sn ar : gmap string Z) (s : State) :
  TCBuildProperties.Property
    (TCBuildPayload.Properties (StartBuild_payload bt br c ps sn ar s).1)
    ≡ₚ property_pair <$> map_to_list ps
  ∧ (∀ k v, ps !! k = Some v
       ↔ {| TCBuildProperty.Name := k; TCBuildProperty.Value := v |}
           ∈ TCBuildProperties.Property
               (TCBuildPayload.Properties
                  (StartBuild_payload bt br c ps sn ar s).1))
  ∧ length
      (TCBuildProperties.Property
         (TCBuildPayload.Properties (StartBuild_payload bt br c ps sn ar s).1))
    = size ps
  ∧ TCBuildProperties.Property
      (TCBuildPayload.Properties
         (StartBuild_payload bt br c {[ "KEY" := "VALUE" ]} ∅ ∅ s).1)
    = [ {| TCBuildProperty.Name := "KEY"; TCBuildProperty.Value := "VALUE" |} ]
  ∧ TCBuildPayload.SnapshotDependencies
      (StartBuild_payload bt br c {[ "KEY" := "VALUE" ]} ∅ ∅ s).1 = None
  ∧ TCBuildPayload.ArtifactDependencies
      (StartBuild_payload bt br c {[ "KEY" := "VALUE" ]} ∅ ∅ s).1 = None
  ∧ (∀ bytes,
       json_Marshal (StartBuild_payload bt br c ps sn ar s).1 = Ok bytes →
       url_Parse (serverURL t +:+ "/app/rest/buildQueue") = None →
       sent (StartBuild t bt br c ps sn ar s).2
       = sent s
         ++ [api_request t "POST" (serverURL t +:+ "/app/rest/buildQueue")
               (Some bytes)])
  ∧ (∀ e,
       json_Marshal (StartBuild_payload bt br c ps sn ar s).1 = Err e →
       (StartBuild t bt br c ps sn ar s).1 = (-1, Some e))
  ∧ (∀ bytes,
       json_Marshal
         {| TCBuildPayload.BuildType := {| TCBuildType.ID := bt |};
            TCBuildPayload.Comment := {| TCBuildComment.Text := c |};
            TCBuildPayload.Properties :=
              {| TCBuildProperties.Property :=
                   [ {| TCBuildProperty.Name := "KEY";
                        TCBuildProperty.Value := "VALUE" |} ] |};
            TCBuildPayload.Personal := "False";
            TCBuildPayload.BranchName := br;
            TCBuildPayload.SnapshotDependencies := None;
            TCBuildPayload.ArtifactDependencies := None |}
       = Ok bytes →
       url_Parse (serverURL t +:+ "/app/rest/buildQueue") = None →
       sent (StartBuild t bt br c {[ "KEY" := "VALUE" ]} ∅ ∅ s).2
       = sent s
         ++ [api_request t "POST" (serverURL t +:+ "/app/rest/buildQueue")
               (Some bytes)]).
Proof.
  pose proof (range_order_perm (ranges s) _ ps) as Hp.
  assert (Hk : range_order (ranges s) string {[ "KEY" := "VALUE" ]}
               = [("KEY", "VALUE")]).
  { pose proof (range_order_perm (ranges s) _
                  ({[ "KEY" := "VALUE" ]} : gmap string string)) as Hk.
    rewrite map_to_list_singleton in Hk.
    by apply Permutation_singleton_r in Hk. }
  assert (Hn : ∀ n, range_order n Z ∅ = [])
    by (intros n; by apply range_order_nil).
  split_and!.
  - rewrite StartBuild_payload_run. simpl. by rewrite Hp.
  - rewrite StartBuild_payload_run. simpl. intros k v.
    change (ps !! k = Some v
            ↔ property_pair (k, v)
                ∈ property_pair <$> range_order (ranges s) _ ps).
    rewrite Hp, <- elem_of_map_to_list. split.
    + intros Hin. by apply list_elem_of_fmap_2.
    + intros ([k' v'] & [= -> ->] & Hin)%list_elem_of_fmap. done.
  - rewrite StartBuild_payload_run. simpl.
    rewrite length_fmap, Hp. by rewrite length_map_to_list.
  - rewrite StartBuild_payload_run. simpl. by rewrite Hk.
  - rewrite StartBuild_payload_run. simpl. by rewrite Hn.
  - rewrite StartBuild_payload_run. simpl. by rewrite Hn.
  - intros bytes Hm Hu. by apply StartBuild_sent.
  - intros e Hm. unfold StartBuild.
    unfold mbind at 1. unfold IO_bind at 1.
    destruct (StartBuild_payload bt br c ps sn ar s) as [p s1].
    simpl in Hm. by rewrite Hm.
  - intros bytes Hm Hu. apply StartBuild_sent; [|done].
    rewrite StartBuild_payload_run. simpl. by rewrite Hk, !Hn.
Qed.

Lemma StartBuild_properties_witness :
  sent
    (StartBuild (H := Demo.runtime) Demo.tc "bt" "main" "nightly"
       {[ "KEY" := "VALUE" ]} ∅ ∅ Demo.s0).2
  = [api_request Demo.tc "POST" "https://ci.example.org/app/rest/buildQueue"
       (Some (Demo.bytes "bt"))]
  ∧ TCBuildProperties.Property
      (TCBuildPayload.Properties
         (StartBuild_payload (H := Demo.runtime) "bt" "main" "nightly"
            {[ "KEY" := "VALUE" ]} ∅ ∅ Demo.s0).1)
    = [ {| TCBuildProperty.Name := "KEY"; TCBuildProperty.Value := "VALUE" |} ].
Proof.
  pose proof (StartBuild_properties (H := Demo.runtime) Demo.tc "bt" "main"
                "nightly" {[ "KEY" := "VALUE" ]} ∅ ∅ Demo.s0)
    as (_ & _ & _ & Hprop & _ & _ & _ & _ & Hpost).
  split; [|exact Hprop].
  apply (Hpost (Demo.bytes "bt")); reflexivity.
Defined.

(** C6: [StartBuild] returns a non-nil error exactly when marshaling the
    payload fails, request construction fails, the network call fails,
    the response body cannot be read, or the body does not decode into
    the build details; the id returned with an error is -1; otherwise
    the error is nil and the id is the one of the decoded build
    details. *)
Theorem StartBuild_result
    `{Runtime} (t : TCClient) (bt br c : string)
    (ps : gmap string string) (sn ar : gmap string Z) (s : State) :
  let payload := (StartBuild_payload bt br c ps sn ar s).1 in
  let r := (StartBuild t bt br c ps sn ar s).1 in
  (∀ e, r.2 = Some e ↔ StartBuild_fails t payload e)
  ∧ (∀ e, r.2 = Some e → r.1 = -1)
  ∧ (r.2 = None →
     ∃ bytes resp d,
       json_Marshal payload = Ok bytes
       ∧ url_Parse (serverURL t +:+ "/app/rest/buildQueue") = None
       ∧ RoundTrip (client t)
           (api_request t "POST" (serverURL t +:+ "/app/rest/buildQueue")
              (Some bytes)) = Ok resp
       ∧ ioutil_ReadAll (Body resp) = (stream (Body resp), None)
       ∧ json_Unmarshal (stream (Body resp)) TCBuildDetails.zero = (d, None)
       ∧ r.1 = TCBuildDetails.ID d).
Proof.
  intros payload r.
  remember (StartBuild t bt br c ps sn ar s) as out eqn:Hout in r.
  unfold StartBuild in Hout. unfold mbind at 1 in Hout.
  unfold IO_bind at 1 in Hout.
  subst payload.
  destruct (StartBuild_payload bt br c ps sn ar s) as [p s1].
  unfold http_NewRequest in Hout. simpl fst.
  destruct (json_Marshal p) as [bytes|e1] eqn:Hm;
    [destruct (url_Parse (serverURL t +:+ "/app/rest/buildQueue"))
       as [e2|] eqn:Hu|];
    run_io; try rewrite headers_of_new_request in Hout;
    [|destruct (RoundTrip (client t) _) as [resp|e3] eqn:Hr;
      [destruct (stream_err (Body resp)) as [e4|] eqn:Hb;
       [|destruct (json_Unmarshal (stream (Body resp)) TCBuildDetails.zero)
           as [d [e5|]] eqn:Hj]|]|];
    subst r out; simpl.
  all: split_and!;
    [ intros e; split;
      [ try done; intros [= <-];
        solve [ econstructor; unfold http_NewRequest; simpl;
                rewrite ?Hu, ?Hb, ?Hj; eauto ]
      | inversion 1; unfold http_NewRequest in *; simpl in *;
        same_oracle; congruence ]
    | done
    | try done; intros _; eexists _, _, _; split_and!; eauto;
      by rewrite ?Hb ].
Qed.

Lemma StartBuild_result_witness :
  (StartBuild (H := Demo.runtime) Demo.tc "bt" "main" "nightly"
     {[ "KEY" := "VALUE" ]} ∅ ∅ Demo.s0).1 = (0, None)
  ∧ ∀ e, ¬ StartBuild_fails (H := Demo.runtime) Demo.tc
             (StartBuild_payload (H := Demo.runtime) "bt" "main" "nightly"
                {[ "KEY" := "VALUE" ]} ∅ ∅ Demo.s0).1 e.
Proof.
  pose proof (StartBuild_result (H := Demo.runtime) Demo.tc "bt" "main"
                "nightly" {[ "KEY" := "VALUE" ]} ∅ ∅ Demo.s0)
    as (Hfail & _ & _).
  split; [vm_compute; reflexivity|].
  intros e He. apply Hfail in He. vm_compute in He. discriminate He.
Defined.

(** ** Cancelling and stopping a build *)

Section stop.
Context `{Runtime}.

Lemma CancelQueuedBuild_post (t : TCClient) (id : Z) (comment : string) :
  CancelQueuedBuild t id comment
  = post_stop_payload "/app/rest/buildQueue/" t id comment.
Proof.
  unfold CancelQueuedBuild, post_stop_payload, stop_payload,
    http_NewRequest.
  destruct (json_Marshal _) as [bytes|e]; [|done].
  destruct (url_Parse _); [done|]. simpl.
  by rewrite headers_of_new_request.
Qed.

Lemma StopBuild_post (t : TCClient) (id : Z) (comment : string) :
  StopBuild t id comment
  = post_stop_payload "/app/rest/builds/" t id comment.
Proof.
  unfold StopBuild, post_stop_payload, stop_payload, http_NewRequest.
  destruct (json_Marshal _) as [bytes|e]; [|done].
  destruct (url_Parse _); [done|]. simpl.
  by rewrite headers_of_new_request.
Qed.

(** The request of a stop/cancel call. *)
Lemma post_stop_payload_sent
    (endpoint : string) (t : TCClient) (id : Z) (comment : string)
    (s : State) (bytes : list Byte.byte) :
  json_Marshal (stop_payload comment) = Ok bytes →
  url_Parse (serverURL t +:+ endpoint +:+ fmt_d id) = None →
  sent (post_stop_payload endpoint t id comment s).2
  = sent s
    ++ [api_request t "POST" (serverURL t +:+ endpoint +:+ fmt_d id)
          (Some bytes)].
Proof.
  intros Hm Hu. unfold post_stop_payload. rewrite Hm, Hu. run_io.
  repeat case_match; reflexivity.
Qed.

(** The result of a stop/cancel call: nil exactly when the payload was
    marshalled, the request built, the round trip made and the body
    read. *)
Lemma post_stop_payload_nil
    (endpoint : string) (t : TCClient) (id : Z) (comment : string)
    (s : State) :
  (post_stop_payload endpoint t id comment s).1 = None
  ↔ ∃ bytes resp,
      json_Marshal (stop_payload comment) = Ok bytes
      ∧ url_Parse (serverURL t +:+ endpoint +:+ fmt_d id) = None
      ∧ RoundTrip (client t)
          (api_request t "POST" (serverURL t +:+ endpoint +:+ fmt_d id)
             (Some bytes)) = Ok resp
      ∧ stream_err (Body resp) = None.
Proof.
  unfold post_stop_payload.
  destruct (json_Marshal _) as [bytes|e1] eqn:Hm;
    [destruct (url_Parse _) as [e2|] eqn:Hu|];
    run_io;
    [|destruct (RoundTrip _ _) as [resp|e3] eqn:Hr;
      [destruct (stream_err (Body resp)) as [e4|] eqn:Hb|]|];
    simpl;
    (split;
     [ try done; intros _; by eexists _, _
     | intros (bytes' & resp' & ? & ? & ? & ?); same_oracle; congruence ]).
Qed.

(** Two endpoints that the runtime treats alike give the same result,
    the same log lines, and requests that differ in the URL only. *)
Lemma post_stop_payload_endpoints
    (e1 e2 : string) (t : TCClient) (id : Z) (comment : string) (s : State) :
  url_Parse (serverURL t +:+ e1 +:+ fmt_d id)
    = url_Parse (serverURL t +:+ e2 +:+ fmt_d id) →
  (∀ body,
     RoundTrip (client t)
       (api_request t "POST" (serverURL t +:+ e1 +:+ fmt_d id) body)
     = RoundTrip (client t)
         (api_request t "POST" (serverURL t +:+ e2 +:+ fmt_d id) body)) →
  (post_stop_payload e1 t id comment s).1
    = (post_stop_payload e2 t id comment s).1
  ∧ logged (post_stop_payload e1 t id comment s).2
      = logged (post_stop_payload e2 t id comment s).2
  ∧ Forall2
      (λ r1 r2, Method r1 = Method r2 ∧ ReqHeader r1 = ReqHeader r2
                ∧ ReqBody r1 = ReqBody r2)
      (sent (post_stop_payload e1 t id comment s).2)
      (sent (post_stop_payload e2 t id comment s).2).
Proof.
  intros Hu Hr. unfold post_stop_payload.
  destruct (json_Marshal _) as [bytes|err]; run_io.
  - rewrite Hu.
    destruct (url_Parse (serverURL t +:+ e2 +:+ fmt_d id)); run_io.
    + split_and!; [done..|]. by apply Forall_Forall2_diag, Forall_true.
    + rewrite Hr.
      destruct (RoundTrip (client t) _) as [resp|?]; simpl;
        [destruct (stream_err (Body resp)); simpl|];
        (split_and!; [done..|];
         apply Forall2_app; [by apply Forall_Forall2_diag, Forall_true|];
         by repeat constructor).
  - split_and!; [done..|]. by apply Forall_Forall2_diag, Forall_true.
Qed.

End stop.

(** C7: [CancelQueuedBuild id comment] POSTs the stop payload (the
    comment, re-queue fixed to false) to
    [{base}/app/rest/buildQueue/{id}] with the three headers, and
    returns nil whenever the round trip succeeds and the body is read,
    whatever the status code, the header and the bytes of the response:
    the body is not decoded (other decoders change nothing). *)
Theorem CancelQueuedBuild_contract
    `{Runtime} (t : TCClient) (id : Z) (comment : string) (s : State) :
  TCBuildStopPayload.Comment (stop_payload comment) = comment
  ∧ TCBuildStopPayload.ReaddIntoQueue (stop_payload comment) = "false"
  ∧ (∀ bytes,
       json_Marshal (stop_payload comment) = Ok bytes →
       url_Parse (serverURL t +:+ "/app/rest/buildQueue/" +:+ fmt_d id)
         = None →
       sent (CancelQueuedBuild t id comment s).2
       = sent s
         ++ [api_request t "POST"
               (serverURL t +:+ "/app/rest/buildQueue/" +:+ fmt_d id)
               (Some bytes)])
  ∧ (∀ bytes code hdr body,
       json_Marshal (stop_payload comment) = Ok bytes →
       url_Parse (serverURL t +:+ "/app/rest/buildQueue/" +:+ fmt_d id)
         = None →
       RoundTrip (client t)
         (api_request t "POST"
            (serverURL t +:+ "/app/rest/buildQueue/" +:+ fmt_d id)
            (Some bytes))
       = Ok (mkResponse code hdr (mkBody body None)) →
       (CancelQueuedBuild t id comment s).1 = None)
  ∧ (∀ u1 u2,
       CancelQueuedBuild (H := with_decoders u1 u2 H) t id comment s
       = CancelQueuedBuild t id comment s).
Proof.
  split_and!; [done | done | | | done].
  - intros bytes Hm Hu. rewrite CancelQueuedBuild_post.
    by apply post_stop_payload_sent.
  - intros bytes code hdr body Hm Hu Hr. rewrite CancelQueuedBuild_post.
    apply post_stop_payload_nil. by eexists _, _.
Qed.

Lemma CancelQueuedBuild_contract_witness :
  CancelQueuedBuild (H := Demo.runtime) Demo.tc 7 "no longer needed" Demo.s0
  = (None,
     {| sent :=
          [api_request Demo.tc "POST"
             "https://ci.example.org/app/rest/buildQueue/7"
             (Some (Demo.bytes "no longer needed:false"))];
        logged := [Println "no longer needed:false"; Println "{}"];
        ranges := 0 |}).
Proof.
  pose proof (CancelQueuedBuild_contract (H := Demo.runtime) Demo.tc 7
                "no longer needed" Demo.s0) as (_ & _ & Hsent & Hnil & _).
  specialize (Hsent (Demo.bytes "no longer needed:false")
                eq_refl eq_refl).
  specialize (Hnil (Demo.bytes "no longer needed:false") 500
                {[ "Content-Type" := ["text/plain"] ]} (Demo.bytes "{}")
                eq_refl eq_refl eq_refl).
  destruct (CancelQueuedBuild _ _ _ _) as [r [snt lg rg]] eqn:Hrun.
  simpl in Hsent, Hnil. subst r snt.
  vm_compute in Hrun. injection Hrun as <- <-.
  reflexivity.
Defined.

(** C8: [StopBuild] and [CancelQueuedBuild] are the same stop request
    (same payload, same headers, same failure conditions, same log
    lines, no look at the status or body of the response) at two
    endpoints: [{base}/app/rest/builds/{id}] for [StopBuild],
    [{base}/app/rest/buildQueue/{id}] for [CancelQueuedBuild]. Where the
    runtime answers both endpoints alike, the two methods return the
    same result and log the same lines, and their requests agree in
    method, headers and body. *)
Theorem StopBuild_as_CancelQueuedBuild
    `{Runtime} (t : TCClient) (id : Z) (comment : string) (s : State) :
  StopBuild t id comment
    = post_stop_payload "/app/rest/builds/" t id comment
  ∧ CancelQueuedBuild t id comment
      = post_stop_payload "/app/rest/buildQueue/" t id comment
  ∧ (∀ bytes,
       json_Marshal (stop_payload comment) = Ok bytes →
       url_Parse (serverURL t +:+ "/app/rest/builds/" +:+ fmt_d id) = None →
       sent (StopBuild t id comment s).2
       = sent s
         ++ [api_request t "POST"
               (serverURL t +:+ "/app/rest/builds/" +:+ fmt_d id)
               (Some bytes)])
  ∧ (url_Parse (serverURL t +:+ "/app/rest/builds/" +:+ fmt_d id)
       = url_Parse (serverURL t +:+ "/app/rest/buildQueue/" +:+ fmt_d id) →
     (∀ body,
        RoundTrip (client t)
          (api_request t "POST"
             (serverURL t +:+ "/app/rest/builds/" +:+ fmt_d id) body)
        = RoundTrip (client t)
            (api_request t "POST"
               (serverURL t +:+ "/app/rest/buildQueue/" +:+ fmt_d id) body)) →
     (StopBuild t id comment s).1 = (CancelQueuedBuild t id comment s).1
     ∧ logged (StopBuild t id comment s).2
         = logged (CancelQueuedBuild t id comment s).2
     ∧ Forall2
         (λ r1 r2, Method r1 = Method r2 ∧ ReqHeader r1 = ReqHeader r2
                   ∧ ReqBody r1 = ReqBody r2)
         (sent (StopBuild t id comment s).2)
         (sent (CancelQueuedBuild t id comment s).2)).
Proof.
  split_and!.
  - apply StopBuild_post.
  - apply CancelQueuedBuild_post.
  - intros bytes Hm Hu. rewrite StopBuild_post.
    by apply post_stop_payload_sent.
  - intros Hu Hr. rewrite StopBuild_post, CancelQueuedBuild_post.
    by apply post_stop_payload_endpoints.
Qed.

Lemma StopBuild_as_CancelQueuedBuild_witness :
  (StopBuild (H := Demo.runtime) Demo.tc 7 "no longer needed" Demo.s0).1
  = (CancelQueuedBuild (H := Demo.runtime) Demo.tc 7 "no longer needed"
       Demo.s0).1
  ∧ sent (StopBuild (H := Demo.runtime) Demo.tc 7 "no longer needed"
            Demo.s0).2
    = [api_request Demo.tc "POST" "https://ci.example.org/app/rest/builds/7"
         (Some (Demo.bytes "no longer needed:false"))].
Proof.
  pose proof (StopBuild_as_CancelQueuedBuild (H := Demo.runtime) Demo.tc 7
                "no longer needed" Demo.s0) as (_ & _ & Hsent & Hsame).
  split.
  - apply Hsame; [reflexivity | intros body; reflexivity].
  - apply (Hsent (Demo.bytes "no longer needed:false")); reflexivity.
Defined.

(** ** Fetching an artifact *)

Section artifact.
Context `{Runtime}.

(** Rewriting the header of every response leaves the error of
    [GetArtifactTextFile] as it is. *)
Lemma GetArtifactTextFile_header_blind
    (g : Header → Header) (t : TCClient) (path : string) (id : Z)
    (s : State) :
  (GetArtifactTextFile (H := with_response_header g H) t path id s).1.2
  = (GetArtifactTextFile t path id s).1.2.
Proof.
  unfold GetArtifactTextFile, http_NewRequest. simpl url_Parse.
  destruct (url_Parse _); [done|]. run_io.
  destruct (RoundTrip (client t) _) as [resp|e]; [|done]. simpl.
  by destruct (stream_err (Body resp)).
Qed.

End artifact.

(** C9: [GetArtifactTextFile path id] GETs
    [{base}/app/rest/builds/id:{id}/artifacts/content/{path}]; it fails
    exactly when request construction, the network call or reading the
    body fails; on success it returns the bytes of the body as read and
    the first [Content-Type] value of the response header; the header of
    the response never changes whether, or with which error, it fails. *)
Theorem GetArtifactTextFile_result
    `{Runtime} (t : TCClient) (path : string) (id : Z) (s : State) :
  let url :=
    serverURL t +:+ "/app/rest/builds/id:" +:+ fmt_d id
      +:+ "/artifacts/content/" +:+ path in
  let out := GetArtifactTextFile t path id s in
  (url_Parse url = None →
   sent out.2 = sent s ++ [api_request t "GET" url None])
  ∧ (∀ e, out.1.2 = Some e ↔ GetArtifactTextFile_fails t url e)
  ∧ (out.1.2 = None →
     ∃ resp,
       url_Parse url = None
       ∧ RoundTrip (client t) (api_request t "GET" url None) = Ok resp
       ∧ ioutil_ReadAll (Body resp) = (stream (Body resp), None)
       ∧ out.1 = (stream (Body resp),
                  Header_Get (RespHeader resp) "Content-Type", None))
  ∧ (∀ g,
       (GetArtifactTextFile (H := with_response_header g H) t path id s).1.2
       = out.1.2).
Proof.
  intros url out. subst out.
  split; [|split; [|split]];
    [..|intros g; apply GetArtifactTextFile_header_blind].
  all: unfold GetArtifactTextFile, http_NewRequest; fold url;
    destruct (url_Parse url) as [e1|] eqn:Hu; run_io;
    [|rewrite !headers_of_new_request;
      destruct (RoundTrip (client t) _) as [resp|e2] eqn:Hr;
      [destruct (stream_err (Body resp)) as [e3|] eqn:Hb|]];
    simpl.
  all: first
    [ done
    | intros e; split;
      [ try done; intros [= <-];
        solve [ econstructor; unfold http_NewRequest; simpl;
                rewrite ?Hu, ?Hb; eauto ]
      | inversion 1; unfold http_NewRequest in *; simpl in *;
        same_oracle; congruence ]
    | intros _; eexists; split_and!; eauto; by rewrite ?Hb ].
Qed.

Lemma GetArtifactTextFile_result_witness :
  GetArtifactTextFile (H := Demo.runtime) Demo.tc "logs/build.log" 12 Demo.s0
  = (Demo.bytes "{}", "text/plain", None,
     {| sent :=
          [api_request Demo.tc "GET"
             "https://ci.example.org/app/rest/builds/id:12/artifacts/content/logs/build.log"
             None];
        logged := []; ranges := 0 |}).
Proof.
  pose proof (GetArtifactTextFile_result (H := Demo.runtime) Demo.tc
                "logs/build.log" 12 Demo.s0) as (Hsent & _ & _ & _).
  specialize (Hsent eq_refl).
  destruct (GetArtifactTextFile _ _ _ _) as [r [snt lg rg]] eqn:Hrun.
  simpl in Hsent. subst snt.
  vm_compute in Hrun. injection Hrun as <- <- <-.
  reflexivity.
Defined.

(** ** Status codes *)

(** C1: [GetBuild], [StartBuild] and [GetAllBuilds] never look at the
    status code of the response: replacing the status code of every
    response by any other changes neither their result nor their
    effects; and for every response, whatever its status code (4xx and
    5xx included) and header, if its body is read without error and
    decodes into the destination, the method returns a nil error. *)
Theorem status_code_not_inspected (R : Runtime) (f : Z → Z) :
  (∀ (D : Type) (U : Unmarshal D) t id (d : D) s,
     GetBuild (H := with_status f R) t id d s = GetBuild (H := R) t id d s)
  ∧ (∀ t bt br c ps sn ar s,
       StartBuild (H := with_status f R) t bt br c ps sn ar s
       = StartBuild (H := R) t bt br c ps sn ar s)
  ∧ (∀ t params s,
       GetAllBuilds (H := with_status f R) t params s
       = GetAllBuilds (H := R) t params s)
  ∧ (∀ (D : Type) (U : Unmarshal D) t id (d d' : D) s code hdr body,
       url_Parse (serverURL t +:+ "/app/rest/builds/id:" +:+ fmt_d id)
         = None →
       RoundTrip (client t)
         (api_request t "GET"
            (serverURL t +:+ "/app/rest/builds/id:" +:+ fmt_d id) None)
       = Ok (mkResponse code hdr (mkBody body None)) →
       json_Unmarshal body d = (d', None) →
       (GetBuild t id d s).1 = (d', None))
  ∧ (∀ t bt br c ps sn ar s bytes code hdr body d,
       json_Marshal (StartBuild_payload bt br c ps sn ar s).1 = Ok bytes →
       url_Parse (serverURL t +:+ "/app/rest/buildQueue") = None →
       RoundTrip (client t)
         (api_request t "POST" (serverURL t +:+ "/app/rest/buildQueue")
            (Some bytes))
       = Ok (mkResponse code hdr (mkBody body None)) →
       json_Unmarshal body TCBuildDetails.zero = (d, None) →
       (StartBuild t bt br c ps sn ar s).1 = (TCBuildDetails.ID d, None))
  ∧ (∀ t params s code hdr body builds,
       url_Parse (GetAllBuilds_requestURL t params) = None →
       RoundTrip (client t)
         (api_request t "GET" (GetAllBuilds_requestURL t params) None)
       = Ok (mkResponse code hdr (mkBody body None)) →
       json_Unmarshal body TCBuildSnapshotDependencies.zero
         = (builds, None) →
       (GetAllBuilds t params s).1 = (builds, None)).
Proof.
  split_and!.
  - intros D U t id d s. unfold GetBuild, http_NewRequest. simpl url_Parse.
    destruct (url_Parse _); [done|]. run_io.
    by destruct (RoundTrip (client t) _); simpl.
  - intros t bt br c ps sn ar s. unfold StartBuild, http_NewRequest.
    run_io. destruct (json_Marshal _); simpl; [|done].
    destruct (url_Parse _); [done|]. simpl.
    by destruct (RoundTrip (client t) _); simpl.
  - intros t params s. unfold GetAllBuilds, http_NewRequest. simpl url_Parse.
    destruct (url_Parse _); [done|]. run_io.
    by destruct (RoundTrip (client t) _); simpl.
  - intros D U t id d d' s code hdr body Hu Hr Hj.
    unfold GetBuild. rewrite (new_request_ok _ _ _ Hu). run_io.
    rewrite headers_of_new_request, Hr. simpl. by rewrite Hj.
  - intros t bt br c ps sn ar s bytes code hdr body d Hm Hu Hr Hj.
    unfold StartBuild. unfold mbind at 1. unfold IO_bind at 1.
    destruct (StartBuild_payload bt br c ps sn ar s) as [p s1].
    simpl in Hm. rewrite Hm, (new_request_ok _ _ _ Hu). run_io.
    rewrite headers_of_new_request, Hr. simpl. by rewrite Hj.
  - intros t params s code hdr body builds Hu Hr Hj.
    unfold GetAllBuilds. rewrite (new_request_ok _ _ _ Hu). run_io.
    rewrite headers_of_new_request, Hr. simpl. by rewrite Hj.
Qed.

Lemma status_code_not_inspected_witness :
  (GetBuild (H := Demo.runtime) (U := Demo.decode_details) Demo.tc 12
     TCBuildDetails.zero Demo.s0).1
  = (TCBuildDetails.zero, None)
  ∧ (StartBuild (H := Demo.runtime) Demo.tc "bt" "main" "nightly"
       {[ "KEY" := "VALUE" ]} ∅ ∅ Demo.s0).1
    = (0, None)
  ∧ (GetAllBuilds (H := Demo.runtime) Demo.tc no_filters Demo.s0).1
    = (TCBuildSnapshotDependencies.zero, None)
  ∧ GetBuild (H := with_status (λ _, 200) Demo.runtime)
      (U := Demo.decode_details) Demo.tc 12 TCBuildDetails.zero Demo.s0
    = GetBuild (H := Demo.runtime) (U := Demo.decode_details) Demo.tc 12
        TCBuildDetails.zero Demo.s0.
Proof.
  pose proof (status_code_not_inspected Demo.runtime (λ _, 200))
    as (Hblind & _ & _ & Hget & Hstart & Hall).
  split_and!.
  - apply (Hget _ _ Demo.tc 12 _ _ Demo.s0 500
             {[ "Content-Type" := ["text/plain"] ]} (Demo.bytes "{}"));
      reflexivity.
  - apply (Hstart Demo.tc "bt" "main" "nightly" _ _ _ Demo.s0
             (Demo.bytes "bt") 500
             {[ "Content-Type" := ["text/plain"] ]} (Demo.bytes "{}")
             TCBuildDetails.zero);
      reflexivity.
  - apply (Hall Demo.tc no_filters Demo.s0 500
             {[ "Content-Type" := ["text/plain"] ]} (Demo.bytes "{}"));
      reflexivity.
  - apply Hblind.
Defined.

(** * Further properties of the client *)

(** ** What the token looks like on the wire *)

(** X1: the Authorization value that a client constructed from a token
    puts on a fresh header is the token itself when the token already
    starts with [Bearer ], and [Bearer ] followed by the token
    otherwise. *)
Theorem authorization_value_of_token
    (rt dt tt : Z) (url tok : string) (ins : bool) :
  setAuthorizationHeader (NewTeamcityClient rt dt tt url tok ins) ∅
    !! "Authorization"
  = Some [if HasPrefix tok "Bearer " then tok else "Bearer " +:+ tok].
Proof.
  unfold setAuthorizationHeader. rewrite Header_Add_fresh by done.
  rewrite lookup_insert_eq, token_NewTeamcityClient. do 2 f_equal.
  destruct (HasPrefix tok "Bearer ") eqn:Hp.
  - symmetry. by apply HasPrefix_inv.
  - by rewrite TrimPrefix_absent.
Qed.

(** X2: [setAuthorizationHeader] adds and never replaces: the values
    already stored under [Authorization] stay in front of the new one
    (so [Header.Get] keeps returning the old first value), every other
    header name is untouched, and applying it twice stores the value
    twice. *)
Theorem setAuthorizationHeader_appends (t : TCClient) (h : Header) :
  setAuthorizationHeader t h !! "Authorization"
  = Some (default [] (h !! "Authorization") ++ ["Bearer " +:+ token t])
  ∧ (∀ k, k ≠ "Authorization" → setAuthorizationHeader t h !! k = h !! k)
  ∧ (∀ v vs, h !! "Authorization" = Some (v :: vs) →
       Header_Get (setAuthorizationHeader t h) "Authorization" = v)
  ∧ setAuthorizationHeader t (setAuthorizationHeader t ∅) !! "Authorization"
    = Some ["Bearer " +:+ token t; "Bearer " +:+ token t].
Proof.
  unfold setAuthorizationHeader, Header_Add, Header_Get. split_and!.
  - by rewrite lookup_insert_eq.
  - intros k Hk. by rewrite lookup_insert_ne.
  - intros v vs Hv. by rewrite lookup_insert_eq, Hv.
  - by rewrite !lookup_insert_eq.
Qed.

Lemma setAuthorizationHeader_appends_witness :
  Header_Get
    (setAuthorizationHeader Demo.tc {[ "Authorization" := ["Basic dXNlcg"] ]})
    "Authorization"
  = "Basic dXNlcg".
Proof.
  pose proof (setAuthorizationHeader_appends Demo.tc
                {[ "Authorization" := ["Basic dXNlcg"] ]})
    as (_ & _ & Hget & _).
  apply (Hget _ []). reflexivity.
Defined.

(** ** Properties of the locator *)

Section locator_facts.

Lemma locator_filters_comma (params : TCQueryParams.t) :
  Forall (λ f : bool * string, ∃ p, f.2 = p +:+ ",")
    (locator_filters params).
Proof.
  unfold locator_filters. repeat constructor; simpl.
  - exists ("buildType:(id:" +:+ TCQueryParams.BuildTypeID params +:+ ")").
    by rewrite !append_assoc.
  - exists ("branch:(name:" +:+ TCQueryParams.Branch params +:+ ")").
    by rewrite !append_assoc.
  - exists ("user:" +:+ TCQueryParams.User params).
    by rewrite !append_assoc.
  - exists ("count:" +:+ fmt_d (TCQueryParams.Count params)).
    by rewrite !append_assoc.
  - exists ("start:" +:+ fmt_d (TCQueryParams.Start params)).
    by rewrite !append_assoc.
  - exists ("lookupLimit:" +:+ fmt_d (TCQueryParams.LookupLimit params)).
    by rewrite !append_assoc.
  - by exists "running:true".
  - by exists "cancelled:true".
Qed.

(** The concatenation of fragments that all end in a comma is empty or
    ends in a comma. *)
Lemma concat_comma (l : list (bool * string)) :
  Forall (λ f : bool * string, ∃ p, f.2 = p +:+ ",") l →
  (filter (λ f : bool * string, f.1 = true) l = []
   ∧ foldr String.append EmptyString
       (filter (λ f : bool * string, f.1 = true) l).*2 = EmptyString)
  ∨ (filter (λ f : bool * string, f.1 = true) l ≠ []
     ∧ ∃ p, foldr String.append EmptyString
              (filter (λ f : bool * string, f.1 = true) l).*2 = p +:+ ",").
Proof.
  induction 1 as [|[b frag] l [p Hp] _ IH]; [by left|].
  simpl in Hp. destruct b.
  - rewrite filter_cons_True by done. right. split; [done|].
    destruct IH as [[Hnil _]|[_ [q Hq]]]; simpl.
    + exists p. by rewrite Hnil, Hp, append_empty_r.
    + exists (frag +:+ q). rewrite append_assoc, <- Hq. reflexivity.
  - by rewrite filter_cons_False by done.
Qed.

Lemma no_filter_present_filters (params : TCQueryParams.t) :
  filter (λ f : bool * string, f.1 = true) (locator_filters params) = []
  ↔ no_filter_present params.
Proof.
  unfold locator_filters, no_filter_present.
  destruct (String.eqb_spec (TCQueryParams.BuildTypeID params) EmptyString),
    (String.eqb_spec (TCQueryParams.Branch params) EmptyString),
    (String.eqb_spec (TCQueryParams.User params) EmptyString),
    (Z.ltb_spec 0 (TCQueryParams.Count params)),
    (Z.ltb_spec 0 (TCQueryParams.Start params)),
    (Z.ltb_spec 0 (TCQueryParams.LookupLimit params)),
    (TCQueryParams.Running params), (TCQueryParams.Cancelled params);
    simpl;
    (split;
     [ intros Hf; first [discriminate Hf | split_and!; first [done | lia]]
     | intros (? & ? & ? & ? & ? & ? & ? & ?);
       first [done | lia | congruence] ]).
Qed.

End locator_facts.

(** X3: when no filter is present (empty strings, counts that are zero or
    negative, flags false) the requested URL is
    [{base}/app/rest/builds/?locator=] with an empty locator; in every
    other case the requested URL ends in a comma. *)
Theorem GetAllBuilds_trailing_comma
    (t : TCClient) (params : TCQueryParams.t) :
  (no_filter_present params ∧
   GetAllBuilds_requestURL t params
   = serverURL t +:+ "/app/rest/builds/?locator=")
  ∨ (¬ no_filter_present params
     ∧ ∃ p, GetAllBuilds_requestURL t params = p +:+ ",").
Proof.
  rewrite requestURL_locator. unfold locator_spec.
  destruct (concat_comma _ (locator_filters_comma params))
    as [[Hnil _]|[Hne [p Hp]]].
  - left. split; [by apply no_filter_present_filters|].
    rewrite Hnil. simpl. by rewrite append_empty_r.
  - right. split; [by rewrite <- no_filter_present_filters|].
    exists ((serverURL t +:+ "/app/rest/builds/?locator=") +:+ p).
    rewrite Hp. symmetry. apply append_assoc.
Qed.

(** X4: a count, start offset or lookup limit that is zero or negative
    is left out of the locator like an absent one, each field on its
    own: whatever the other filters are, the requested URL is the one of
    the filter set with that field at zero. *)
Theorem GetAllBuilds_nonpositive_ignored
    (t : TCClient) (bt br u : string) (c st ll : Z)
    (run can : bool) :
  ((c ≤ 0)%Z →
   GetAllBuilds_requestURL t (TCQueryParams.mk bt br u c st ll run can)
   = GetAllBuilds_requestURL t (TCQueryParams.mk bt br u 0 st ll run can))
  ∧ ((st ≤ 0)%Z →
     GetAllBuilds_requestURL t (TCQueryParams.mk bt br u c st ll run can)
     = GetAllBuilds_requestURL t (TCQueryParams.mk bt br u c 0 ll run can))
  ∧ ((ll ≤ 0)%Z →
     GetAllBuilds_requestURL t (TCQueryParams.mk bt br u c st ll run can)
     = GetAllBuilds_requestURL t (TCQueryParams.mk bt br u c st 0 run can)).
Proof.
  assert (Hf : ∀ z, (z ≤ 0)%Z → (0 <? z)%Z = false) by (intros; lia).
  split_and!; intros Hz; unfold GetAllBuilds_requestURL; simpl;
    by rewrite (Hf _ Hz).
Qed.

Lemma GetAllBuilds_nonpositive_ignored_witness :
  GetAllBuilds_requestURL Demo.tc
    (TCQueryParams.mk "bt1" EmptyString EmptyString (-5) 3 0 true false)
  = GetAllBuilds_requestURL Demo.tc
      (TCQueryParams.mk "bt1" EmptyString EmptyString 0 3 0 true false)
  ∧ GetAllBuilds_requestURL Demo.tc
      (TCQueryParams.mk "bt1" EmptyString EmptyString 0 3 0 true false)
    = "https://ci.example.org/app/rest/builds/?locator=buildType:(id:bt1),start:3,running:true,".
Proof.
  split; [|reflexivity].
  apply (GetAllBuilds_nonpositive_ignored Demo.tc
           "bt1" EmptyString EmptyString (-5) 3 0 true false).
  lia.
Defined.

(** X5: filter values are copied into the locator as they are, without
    escaping: a user filter that contains [,count:N] requests the same
    URL as that user with the count filter N. *)
Theorem GetAllBuilds_locator_not_escaped
    (t : TCClient) (bt br u : string) (n : Z) (run can : bool) :
  u ≠ EmptyString → (0 < n)%Z →
  GetAllBuilds_requestURL t
    (TCQueryParams.mk bt br (u +:+ ",count:" +:+ fmt_d n) 0 0 0 run can)
  = GetAllBuilds_requestURL t (TCQueryParams.mk bt br u n 0 0 run can).
Proof.
  intros Hu Hn. unfold GetAllBuilds_requestURL. simpl.
  assert (Hn' : (0 <? n)%Z = true) by lia. rewrite Hn'.
  assert (Hu1 : String.eqb u EmptyString = false)
    by by apply String.eqb_neq.
  assert (Hu2 : String.eqb (u +:+ ",count:" +:+ fmt_d n) EmptyString = false).
  { apply String.eqb_neq. by destruct u. }
  rewrite Hu1, Hu2. simpl.
  destruct run, can; simpl; by rewrite !append_assoc.
Qed.

Lemma GetAllBuilds_locator_not_escaped_witness :
  GetAllBuilds_requestURL Demo.tc
    (TCQueryParams.mk EmptyString EmptyString "bob,count:5" 0 0 0 false false)
  = GetAllBuilds_requestURL Demo.tc
      (TCQueryParams.mk EmptyString EmptyString "bob" 5 0 0 false false).
Proof.
  apply (GetAllBuilds_locator_not_escaped Demo.tc
           EmptyString EmptyString "bob" 5 false false); [done | lia].
Defined.

(** ** Fetching build details *)

(** X6: [GetBuild] GETs [{base}/app/rest/builds/id:{id}]. When the URL
    does not parse it returns that error and leaves the destination and
    all effects untouched (nothing sent, nothing logged); when the
    network call or reading the body fails it returns that error with
    the destination untouched; once the body is read, the destination
    and the error are exactly what the decoder leaves, so a body that
    fails to decode may still have changed the destination. *)
Theorem GetBuild_result
    `{Runtime} {D : Type} {U : Unmarshal D}
    (t : TCClient) (id : Z) (d : D) (s : State) :
  let url := serverURL t +:+ "/app/rest/builds/id:" +:+ fmt_d id in
  let out := GetBuild t id d s in
  (url_Parse url = None →
   sent out.2 = sent s ++ [api_request t "GET" url None])
  ∧ (∀ e, url_Parse url = Some e → out = (d, Some e, s))
  ∧ (∀ e, url_Parse url = None →
       RoundTrip (client t) (api_request t "GET" url None) = Err e →
       out.1 = (d, Some e))
  ∧ (∀ resp e, url_Parse url = None →
       RoundTrip (client t) (api_request t "GET" url None) = Ok resp →
       stream_err (Body resp) = Some e →
       out.1 = (d, Some e))
  ∧ (∀ resp, url_Parse url = None →
       RoundTrip (client t) (api_request t "GET" url None) = Ok resp →
       stream_err (Body resp) = None →
       out.1 = json_Unmarshal (stream (Body resp)) d).
Proof.
  intros url out. subst out.
  unfold GetBuild, http_NewRequest. fold url.
  destruct (url_Parse url) as [e1|] eqn:Hu; run_io;
    [|rewrite !headers_of_new_request;
      destruct (RoundTrip (client t) _) as [resp|e2] eqn:Hr;
      [destruct (stream_err (Body resp)) as [e3|] eqn:Hb;
       [|destruct (json_Unmarshal (stream (Body resp)) d)
           as [d' [e4|]] eqn:Hj]|]];
    simpl; split_and!; try done; intros; simplify_eq; try done;
    by rewrite Hj.
Qed.

Lemma GetBuild_result_witness :
  GetBuild (H := Scenario.make Scenario.parse_scheme Demo.server)
    (U := Demo.decode_details) Scenario.tc_no_scheme 12
    TCBuildDetails.zero Demo.s0
  = (TCBuildDetails.zero, Some "missing protocol scheme", Demo.s0)
  ∧ (GetBuild (H := Scenario.make (λ _, None) Scenario.down)
       (U := Demo.decode_details) Demo.tc 12 TCBuildDetails.zero Demo.s0).1
    = (TCBuildDetails.zero, Some "connection refused")
  ∧ (GetBuild (H := Scenario.make (λ _, None) Scenario.truncated)
       (U := Demo.decode_details) Demo.tc 12 TCBuildDetails.zero Demo.s0).1
    = (TCBuildDetails.zero, Some "unexpected EOF")
  ∧ (GetBuild (H := Scenario.make (λ _, None) Scenario.garbage)
       (U := Demo.decode_details) Demo.tc 12 TCBuildDetails.zero Demo.s0).1
    = (TCBuildDetails.zero, Some "invalid character").
Proof.
  split_and!.
  - apply (GetBuild_result
             (H := Scenario.make Scenario.parse_scheme Demo.server)
             (U := Demo.decode_details)). reflexivity.
  - apply (GetBuild_result (H := Scenario.make (λ _, None) Scenario.down)
             (U := Demo.decode_details)); reflexivity.
  - eapply (GetBuild_result (H := Scenario.make (λ _, None) Scenario.truncated)
              (U := Demo.decode_details)); reflexivity.
  - pose proof (GetBuild_result
                  (H := Scenario.make (λ _, None) Scenario.garbage)
                  (U := Demo.decode_details) Demo.tc 12 TCBuildDetails.zero
                  Demo.s0) as (_ & _ & _ & _ & Hdec).
    rewrite (Hdec _ eq_refl eq_refl eq_refl). reflexivity.
Defined.

(** X7: [GetBuild] logs exactly the error it returns, except that a
    request-construction error is returned without a log line; a
    successful call logs nothing. *)
Theorem GetBuild_logging
    `{Runtime} {D : Type} {U : Unmarshal D}
    (t : TCClient) (id : Z) (d : D) (s : State) :
  let url := serverURL t +:+ "/app/rest/builds/id:" +:+ fmt_d id in
  let out := GetBuild t id d s in
  logged out.2
  = logged s
    ++ match url_Parse url, out.1.2 with
       | None, Some e => [Println e]
       | _, _ => []
       end.
Proof.
  intros url out. subst out.
  unfold GetBuild, http_NewRequest. fold url.
  destruct (url_Parse url) as [e1|] eqn:Hu; run_io;
    [|destruct (RoundTrip (client t) _) as [resp|e2] eqn:Hr;
      [destruct (stream_err (Body resp)) as [e3|] eqn:Hb;
       [|destruct (json_Unmarshal (stream (Body resp)) d)
           as [d' [e4|]] eqn:Hj]|]];
    simpl; by rewrite ?app_nil_r.
Qed.

(** ** Querying builds *)

(** X8: [GetAllBuilds] never logs, whatever happens. It fails exactly
    with the error of the first failing step (request construction,
    network call, reading the body, decoding); before decoding, the
    container it returns with the error is empty; once the body is
    read, container and error are exactly what the decoder leaves. *)
Theorem GetAllBuilds_result
    `{Runtime} (t : TCClient) (params : TCQueryParams.t) (s : State) :
  let url := GetAllBuilds_requestURL t params in
  let out := GetAllBuilds t params s in
  logged out.2 = logged s
  ∧ (∀ e, url_Parse url = Some e →
       out = (TCBuildSnapshotDependencies.zero, Some e, s))
  ∧ (∀ e, url_Parse url = None →
       RoundTrip (client t) (api_request t "GET" url None) = Err e →
       out.1 = (TCBuildSnapshotDependencies.zero, Some e))
  ∧ (∀ resp e, url_Parse url = None →
       RoundTrip (client t) (api_request t "GET" url None) = Ok resp →
       stream_err (Body resp) = Some e →
       out.1 = (TCBuildSnapshotDependencies.zero, Some e))
  ∧ (∀ resp, url_Parse url = None →
       RoundTrip (client t) (api_request t "GET" url None) = Ok resp →
       stream_err (Body resp) = None →
       out.1 = json_Unmarshal (stream (Body resp))
                 TCBuildSnapshotDependencies.zero).
Proof.
  intros url out. subst out.
  unfold GetAllBuilds, http_NewRequest. fold url.
  destruct (url_Parse url) as [e1|] eqn:Hu; run_io;
    [|rewrite !headers_of_new_request;
      destruct (RoundTrip (client t) _) as [resp|e2] eqn:Hr;
      [destruct (stream_err (Body resp)) as [e3|] eqn:Hb;
       [|destruct (json_Unmarshal (stream (Body resp))
                     TCBuildSnapshotDependencies.zero)
           as [d' [e4|]] eqn:Hj]|]];
    simpl; split_and!; try done; intros; simplify_eq; try done;
    by rewrite Hj.
Qed.

Lemma GetAllBuilds_result_witness :
  GetAllBuilds (H := Scenario.make Scenario.parse_scheme Demo.server)
    Scenario.tc_no_scheme no_filters Demo.s0
  = (TCBuildSnapshotDependencies.zero, Some "missing protocol scheme",
     Demo.s0)
  ∧ GetAllBuilds (H := Scenario.make (λ _, None) Scenario.garbage)
      Demo.tc no_filters Demo.s0
    = (TCBuildSnapshotDependencies.zero, Some "invalid character",
       {| sent :=
            [api_request Demo.tc "GET"
               "https://ci.example.org/app/rest/builds/?locator=" None];
          logged := []; ranges := 0 |}).
Proof.
  split.
  - apply (GetAllBuilds_result
             (H := Scenario.make Scenario.parse_scheme Demo.server)).
    reflexivity.
  - pose proof (GetAllBuilds_result
                  (H := Scenario.make (λ _, None) Scenario.garbage)
                  Demo.tc no_filters Demo.s0) as (Hlog & _ & _ & _ & Hdec).
    specialize (Hdec _ eq_refl eq_refl eq_refl).
    destruct (GetAllBuilds _ _ _) as [r [snt lg rg]] eqn:Hrun.
    simpl in Hlog, Hdec. subst r lg.
    vm_compute in Hrun. injection Hrun as <- <-. reflexivity.
Defined.

(** ** One request per call *)

(** X9: every method hands at most one request to the network per call
    (no retry), after the requests already sent and with log lines only
    added; that request carries exactly the three headers; it is a GET
    without body for [GetBuild], [GetArtifactTextFile] and
    [GetAllBuilds], and a POST with a body for [StartBuild],
    [CancelQueuedBuild] and [StopBuild]. *)
Theorem methods_send_at_most_one_request `{Runtime} (t : TCClient) (s : State) :
  (∀ (D : Type) (U : Unmarshal D) id (d : D),
     one_call t "GET" s (GetBuild t id d s).2)
  ∧ (∀ path id, one_call t "GET" s (GetArtifactTextFile t path id s).2)
  ∧ (∀ params, one_call t "GET" s (GetAllBuilds t params s).2)
  ∧ (∀ bt br c ps sn ar,
       one_call t "POST" s (StartBuild t bt br c ps sn ar s).2)
  ∧ (∀ id c, one_call t "POST" s (CancelQueuedBuild t id c s).2)
  ∧ (∀ id c, one_call t "POST" s (StopBuild t id c s).2).
Proof.
  split_and!.
  - intros D U id d. unfold GetBuild, http_NewRequest.
    destruct (url_Parse _); run_io; [close_one_call|].
    rewrite !headers_of_new_request.
    destruct (RoundTrip (client t) _) as [resp|?];
      [destruct (stream_err (Body resp));
       [|destruct (json_Unmarshal _ _) as [? [?|]]]|];
      close_one_call.
  - intros path id. unfold GetArtifactTextFile, http_NewRequest.
    destruct (url_Parse _); run_io; [close_one_call|].
    rewrite !headers_of_new_request.
    destruct (RoundTrip (client t) _) as [resp|?];
      [destruct (stream_err (Body resp))|]; close_one_call.
  - intros params. unfold GetAllBuilds, http_NewRequest.
    destruct (url_Parse _); run_io; [close_one_call|].
    rewrite !headers_of_new_request.
    destruct (RoundTrip (client t) _) as [resp|?];
      [destruct (stream_err (Body resp));
       [|destruct (json_Unmarshal _ _) as [? [?|]]]|];
      close_one_call.
  - intros bt br c ps sn ar. unfold StartBuild.
    unfold mbind at 1. unfold IO_bind at 1.
    rewrite StartBuild_payload_run. unfold http_NewRequest.
    destruct (json_Marshal _); [|run_io; close_one_call].
    destruct (url_Parse _); run_io; [close_one_call|].
    rewrite !headers_of_new_request.
    destruct (RoundTrip (client t) _) as [resp|?];
      [destruct (stream_err (Body resp));
       [|destruct (json_Unmarshal _ _) as [? [?|]]]|];
      close_one_call.
  - intros id c. rewrite CancelQueuedBuild_post. unfold post_stop_payload.
    destruct (json_Marshal _); [|run_io; close_one_call].
    destruct (url_Parse _); run_io; [close_one_call|].
    destruct (RoundTrip (client t) _) as [resp|?];
      [destruct (stream_err (Body resp))|]; close_one_call.
  - intros id c. rewrite StopBuild_post. unfold post_stop_payload.
    destruct (json_Marshal _); [|run_io; close_one_call].
    destruct (url_Parse _); run_io; [close_one_call|].
    destruct (RoundTrip (client t) _) as [resp|?];
      [destruct (stream_err (Body resp))|]; close_one_call.
Qed.

(** ** What is written to the log *)

(** X10: [StartBuild] writes the marshalled trigger payload, with every
    build parameter in it, to the log before it builds the request, so
    the payload is logged even when the request is never sent; a
    marshaling error is logged and nothing is sent; a successful call
    logs exactly the payload, the response body (as a format string)
    and the decoded build details. *)
Theorem StartBuild_logging
    `{Runtime} (t : TCClient) (bt br c : string)
    (ps : gmap string string) (sn ar : gmap string Z) (s : State) :
  let payload := (StartBuild_payload bt br c ps sn ar s).1 in
  let out := StartBuild t bt br c ps sn ar s in
  (∀ e, json_Marshal payload = Err e →
     logged out.2 = logged s ++ [Println e] ∧ sent out.2 = sent s)
  ∧ (∀ bytes, json_Marshal payload = Ok bytes →
       ∃ rest,
         logged out.2
         = logged s ++ Println (string_of_list_byte bytes) :: rest)
  ∧ (∀ bytes e, json_Marshal payload = Ok bytes →
       url_Parse (serverURL t +:+ "/app/rest/buildQueue") = Some e →
       logged out.2 = logged s ++ [Println (string_of_list_byte bytes)]
       ∧ sent out.2 = sent s)
  ∧ (∀ bytes resp d, json_Marshal payload = Ok bytes →
       url_Parse (serverURL t +:+ "/app/rest/buildQueue") = None →
       RoundTrip (client t)
         (api_request t "POST" (serverURL t +:+ "/app/rest/buildQueue")
            (Some bytes)) = Ok resp →
       stream_err (Body resp) = None →
       json_Unmarshal (stream (Body resp)) TCBuildDetails.zero = (d, None) →
       logged out.2
       = logged s
         ++ [Println (string_of_list_byte bytes);
             Printf (string_of_list_byte (stream (Body resp)));
             Println_value d]).
Proof.
  intros payload out.
  assert (Hout : out = StartBuild t bt br c ps sn ar s) by reflexivity.
  clearbody out. subst payload.
  unfold StartBuild in Hout. unfold mbind at 1 in Hout.
  unfold IO_bind at 1 in Hout.
  pose proof (StartBuild_payload_run bt br c ps sn ar s) as Hrun.
  destruct (StartBuild_payload bt br c ps sn ar s) as [p s1].
  injection Hrun as _ ->.
  unfold http_NewRequest in Hout. simpl fst.
  destruct (json_Marshal p) as [bytes|e1] eqn:Hm;
    [destruct (url_Parse (serverURL t +:+ "/app/rest/buildQueue"))
       as [e2|] eqn:Hu|];
    run_io; try rewrite !headers_of_new_request in Hout;
    [|destruct (RoundTrip (client t) _) as [resp|e3] eqn:Hr;
      [destruct (stream_err (Body resp)) as [e4|] eqn:Hb;
       [|destruct (json_Unmarshal (stream (Body resp)) TCBuildDetails.zero)
           as [d [e5|]] eqn:Hj]|]|];
    subst out; simpl; rewrite <- ?app_assoc; simpl;
    (split_and!;
     [ intros; by simplify_eq
     | intros ? [= <-]; by eexists
     | intros; by simplify_eq
     | intros; simplify_eq; same_oracle; first [done | congruence] ]).
Qed.

Lemma StartBuild_logging_witness :
  logged
    (StartBuild (H := Scenario.make Scenario.parse_scheme Demo.server)
       Scenario.tc_no_scheme "bt" "main" "nightly"
       {[ "SECRET" := "hunter2" ]} ∅ ∅ Demo.s0).2
  = [Println "bt"]
  ∧ logged
      (StartBuild (H := Demo.runtime) Demo.tc "bt" "main" "nightly"
         {[ "SECRET" := "hunter2" ]} ∅ ∅ Demo.s0).2
    = [Println "bt"; Printf "{}"; Println_value TCBuildDetails.zero].
Proof.
  split.
  - pose proof (StartBuild_logging
                  (H := Scenario.make Scenario.parse_scheme Demo.server)
                  Scenario.tc_no_scheme "bt" "main" "nightly"
                  {[ "SECRET" := "hunter2" ]} ∅ ∅ Demo.s0)
      as (_ & _ & Hurl & _).
    apply (Hurl (Demo.bytes "bt") "missing protocol scheme"); reflexivity.
  - pose proof (StartBuild_logging (H := Demo.runtime) Demo.tc "bt" "main"
                  "nightly" {[ "SECRET" := "hunter2" ]} ∅ ∅ Demo.s0)
      as (_ & _ & _ & Hok).
    specialize (Hok (Demo.bytes "bt") _ TCBuildDetails.zero
                  eq_refl eq_refl eq_refl eq_refl eq_refl).
    exact Hok.
Defined.

Section stop_facts.
Context `{Runtime}.

(** The error of a stop request is the error of its first failing
    step. *)
Lemma post_stop_payload_error
    (endpoint : string) (t : TCClient) (id : Z) (comment : string)
    (s : State) (e : error) :
  (post_stop_payload endpoint t id comment s).1 = Some e
  ↔ json_Marshal (stop_payload comment) = Err e
    ∨ ∃ bytes,
        json_Marshal (stop_payload comment) = Ok bytes
        ∧ (url_Parse (serverURL t +:+ endpoint +:+ fmt_d id) = Some e
           ∨ url_Parse (serverURL t +:+ endpoint +:+ fmt_d id) = None
             ∧ (RoundTrip (client t)
                  (api_request t "POST"
                     (serverURL t +:+ endpoint +:+ fmt_d id) (Some bytes))
                = Err e
                ∨ ∃ resp,
                    RoundTrip (client t)
                      (api_request t "POST"
                         (serverURL t +:+ endpoint +:+ fmt_d id)
                         (Some bytes))
                    = Ok resp
                    ∧ stream_err (Body resp) = Some e)).
Proof.
  unfold post_stop_payload.
  destruct (json_Marshal _) as [bytes|e1] eqn:Hm;
    [destruct (url_Parse _) as [e2|] eqn:Hu|];
    run_io;
    [|destruct (RoundTrip _ _) as [resp|e3] eqn:Hr;
      [destruct (stream_err (Body resp)) as [e4|] eqn:Hb|]|];
    simpl; split;
    try (intros [= <-]); try done;
    try (intros [?|(b' & ? & [?|(? & [?|(r' & ? & ?)])])];
         simplify_eq; same_oracle; congruence);
    eauto 10.
Qed.

(** The log lines of a stop request. *)
Lemma post_stop_payload_logged
    (endpoint : string) (t : TCClient) (id : Z) (comment : string)
    (s : State) :
  logged (post_stop_payload endpoint t id comment s).2
  = logged s
    ++ match json_Marshal (stop_payload comment) with
       | Err e => [Println e]
       | Ok bytes =>
           Println (string_of_list_byte bytes)
           :: match url_Parse (serverURL t +:+ endpoint +:+ fmt_d id) with
              | Some _ => []
              | None =>
                  match
                    RoundTrip (client t)
                      (api_request t "POST"
                         (serverURL t +:+ endpoint +:+ fmt_d id)
                         (Some bytes))
                  with
                  | Err e => [Println e]
                  | Ok resp =>
                      match stream_err (Body resp) with
                      | Some e => [Println e]
                      | None =>
                          [Println
                             (string_of_list_byte (stream (Body resp)))]
                      end
                  end
              end
       end.
Proof.
  unfold post_stop_payload.
  destruct (json_Marshal _) as [bytes|e1];
    [destruct (url_Parse _) as [e2|]|];
    run_io;
    [|destruct (RoundTrip _ _) as [resp|e3];
      [destruct (stream_err (Body resp)) as [e4|]|]|];
    simpl; by rewrite <- ?app_assoc.
Qed.

End stop_facts.

(** X11: the error of [CancelQueuedBuild] and of [StopBuild] is the
    error of the first failing step: marshaling the stop payload,
    building the request, the network call, reading the body. *)
Theorem stop_requests_error
    `{Runtime} (t : TCClient) (id : Z) (comment : string) (s : State)
    (e : error) :
  ((CancelQueuedBuild t id comment s).1 = Some e
     ↔ json_Marshal (stop_payload comment) = Err e
       ∨ ∃ bytes,
           json_Marshal (stop_payload comment) = Ok bytes
           ∧ (url_Parse
                (serverURL t +:+ "/app/rest/buildQueue/" +:+ fmt_d id)
              = Some e
              ∨ url_Parse
                  (serverURL t +:+ "/app/rest/buildQueue/" +:+ fmt_d id)
                = None
                ∧ (RoundTrip (client t)
                     (api_request t "POST"
                        (serverURL t +:+ "/app/rest/buildQueue/"
                           +:+ fmt_d id) (Some bytes))
                   = Err e
                   ∨ ∃ resp,
                       RoundTrip (client t)
                         (api_request t "POST"
                            (serverURL t +:+ "/app/rest/buildQueue/"
                               +:+ fmt_d id) (Some bytes))
                       = Ok resp
                       ∧ stream_err (Body resp) = Some e)))
  ∧ ((StopBuild t id comment s).1 = Some e
     ↔ json_Marshal (stop_payload comment) = Err e
       ∨ ∃ bytes,
           json_Marshal (stop_payload comment) = Ok bytes
           ∧ (url_Parse (serverURL t +:+ "/app/rest/builds/" +:+ fmt_d id)
              = Some e
              ∨ url_Parse
                  (serverURL t +:+ "/app/rest/builds/" +:+ fmt_d id)
                = None
                ∧ (RoundTrip (client t)
                     (api_request t "POST"
                        (serverURL t +:+ "/app/rest/builds/" +:+ fmt_d id)
                        (Some bytes))
                   = Err e
                   ∨ ∃ resp,
                       RoundTrip (client t)
                         (api_request t "POST"
                            (serverURL t +:+ "/app/rest/builds/"
                               +:+ fmt_d id) (Some bytes))
                       = Ok resp
                       ∧ stream_err (Body resp) = Some e))).
Proof.
  rewrite CancelQueuedBuild_post, StopBuild_post.
  split; apply post_stop_payload_error.
Qed.

(** X12: [CancelQueuedBuild] and [StopBuild] write the marshalled stop
    payload (the comment in it) to the log before the request is built,
    then the error of the failing step if there is one after that, and
    on success the response body; a marshaling error is the only line
    when marshaling fails. *)
Theorem stop_requests_logging
    `{Runtime} (t : TCClient) (id : Z) (comment : string) (s : State) :
  (∀ bytes, json_Marshal (stop_payload comment) = Ok bytes →
     ∃ rest1 rest2,
       logged (CancelQueuedBuild t id comment s).2
       = logged s ++ Println (string_of_list_byte bytes) :: rest1
       ∧ logged (StopBuild t id comment s).2
         = logged s ++ Println (string_of_list_byte bytes) :: rest2)
  ∧ (∀ e, json_Marshal (stop_payload comment) = Err e →
       logged (CancelQueuedBuild t id comment s).2 = logged s ++ [Println e]
       ∧ logged (StopBuild t id comment s).2 = logged s ++ [Println e])
  ∧ (∀ bytes resp, json_Marshal (stop_payload comment) = Ok bytes →
       url_Parse (serverURL t +:+ "/app/rest/builds/" +:+ fmt_d id) = None →
       RoundTrip (client t)
         (api_request t "POST"
            (serverURL t +:+ "/app/rest/builds/" +:+ fmt_d id) (Some bytes))
       = Ok resp →
       stream_err (Body resp) = None →
       logged (StopBuild t id comment s).2
       = logged s
         ++ [Println (string_of_list_byte bytes);
             Println (string_of_list_byte (stream (Body resp)))])
  ∧ (∀ bytes resp, json_Marshal (stop_payload comment) = Ok bytes →
       url_Parse (serverURL t +:+ "/app/rest/buildQueue/" +:+ fmt_d id)
         = None →
       RoundTrip (client t)
         (api_request t "POST"
            (serverURL t +:+ "/app/rest/buildQueue/" +:+ fmt_d id)
            (Some bytes))
       = Ok resp →
       stream_err (Body resp) = None →
       logged (CancelQueuedBuild t id comment s).2
       = logged s
         ++ [Println (string_of_list_byte bytes);
             Println (string_of_list_byte (stream (Body resp)))]).
Proof.
  rewrite CancelQueuedBuild_post, StopBuild_post.
  rewrite !post_stop_payload_logged.
  split_and!.
  - intros bytes ->. by eexists _, _.
  - by intros e ->.
  - by intros bytes resp -> -> -> ->.
  - by intros bytes resp -> -> -> ->.
Qed.

Lemma stop_requests_logging_witness :
  logged
    (StopBuild (H := Demo.runtime) Demo.tc 7 "no longer needed" Demo.s0).2
  = [Println "no longer needed:false"; Println "{}"].
Proof.
  pose proof (stop_requests_logging (H := Demo.runtime) Demo.tc 7
                "no longer needed" Demo.s0) as (_ & _ & Hok & _).
  apply (Hok (Demo.bytes "no longer needed:false") _
           eq_refl eq_refl eq_refl eq_refl).
Defined.

(** ** More on the trigger payload *)

(** X14: the payload names every parameter once and every dependency
    once: no two properties share a name, no two build references of a
    dependency block share a build-type ID, and a block has as many
    references as its map has entries. *)
Theorem StartBuild_payload_no_duplicates
    `{Runtime} (bt br c : string)
    (ps : gmap string string) (sn ar : gmap string Z) (s : State) :
  let payload := (StartBuild_payload bt br c ps sn ar s).1 in
  NoDup (TCBuildProperty.Name
           <$> TCBuildProperties.Property (TCBuildPayload.Properties payload))
  ∧ (∀ deps, TCBuildPayload.SnapshotDependencies payload = Some deps →
       NoDup (TCBuildDetails.BuildTypeID
                <$> TCBuildSnapshotDependencies.Builds deps)
       ∧ length (TCBuildSnapshotDependencies.Builds deps) = size sn)
  ∧ (∀ deps, TCBuildPayload.ArtifactDependencies payload = Some deps →
       NoDup (TCBuildDetails.BuildTypeID
                <$> TCBuildSnapshotDependencies.Builds deps)
       ∧ length (TCBuildSnapshotDependencies.Builds deps) = size ar).
Proof.
  intros payload. subst payload. rewrite StartBuild_payload_run. simpl.
  assert (Hblock : ∀ n (m : gmap string Z) deps,
            dependency_block (range_order n Z m) = Some deps →
            NoDup (TCBuildDetails.BuildTypeID
                     <$> TCBuildSnapshotDependencies.Builds deps)
            ∧ length (TCBuildSnapshotDependencies.Builds deps) = size m).
  { intros n m deps Hd.
    assert (Hdeps : deps = TCBuildSnapshotDependencies.mk
                             (build_ref <$> range_order n Z m)).
    { destruct (range_order n Z m); [done | by injection Hd]. }
    subst deps. simpl TCBuildSnapshotDependencies.Builds.
    rewrite <- list_fmap_compose, length_fmap.
    rewrite (range_order_perm n Z m), length_map_to_list.
    split; [|done]. apply NoDup_fst_map_to_list. }
  split_and!; [|apply Hblock..].
  rewrite <- list_fmap_compose.
  rewrite (range_order_perm (ranges s) string ps).
  apply NoDup_fst_map_to_list.
Qed.

Lemma StartBuild_payload_no_duplicates_witness :
  length
    (TCBuildSnapshotDependencies.Builds
       (TCBuildSnapshotDependencies.mk
          [build_ref ("A", 1); build_ref ("B", 2)]))
  = size ({[ "A" := 1; "B" := 2 ]} : gmap string Z).
Proof.
  pose proof (StartBuild_payload_no_duplicates (H := Demo.runtime)
                "bt" "main" "nightly" ∅ {[ "A" := 1; "B" := 2 ]} ∅ Demo.s0)
    as (_ & Hsn & _).
  apply Hsn. vm_compute. reflexivity.
Defined.

(** ** More on artifacts *)

(** X15: what [GetArtifactTextFile] returns beside the error. When the
    request cannot be built it returns no bytes and an empty content
    type, and has no effect at all; when the network call fails, no
    bytes and an empty content type; when reading the body fails, the
    bytes read before the error, with an empty content type; on success
    the content type is the first value of the response's Content-Type
    header, and the empty string when the response has none. *)
Theorem GetArtifactTextFile_outputs
    `{Runtime} (t : TCClient) (path : string) (id : Z) (s : State) :
  let url :=
    serverURL t +:+ "/app/rest/builds/id:" +:+ fmt_d id
      +:+ "/artifacts/content/" +:+ path in
  let out := GetArtifactTextFile t path id s in
  (∀ e, url_Parse url = Some e → out = ([], EmptyString, Some e, s))
  ∧ (∀ e, url_Parse url = None →
       RoundTrip (client t) (api_request t "GET" url None) = Err e →
       out.1 = ([], EmptyString, Some e))
  ∧ (∀ resp e, url_Parse url = None →
       RoundTrip (client t) (api_request t "GET" url None) = Ok resp →
       stream_err (Body resp) = Some e →
       out.1 = (stream (Body resp), EmptyString, Some e))
  ∧ (∀ resp, url_Parse url = None →
       RoundTrip (client t) (api_request t "GET" url None) = Ok resp →
       stream_err (Body resp) = None →
       RespHeader resp !! "Content-Type" = None →
       out.1 = (stream (Body resp), EmptyString, None))
  ∧ (∀ resp v vs, url_Parse url = None →
       RoundTrip (client t) (api_request t "GET" url None) = Ok resp →
       stream_err (Body resp) = None →
       RespHeader resp !! "Content-Type" = Some (v :: vs) →
       out.1 = (stream (Body resp), v, None)).
Proof.
  intros url out. subst out.
  unfold GetArtifactTextFile, http_NewRequest. fold url.
  destruct (url_Parse url) as [e1|] eqn:Hu; run_io;
    [|rewrite !headers_of_new_request;
      destruct (RoundTrip (client t) _) as [resp|e2] eqn:Hr;
      [destruct (stream_err (Body resp)) as [e3|] eqn:Hb|]];
    simpl; split_and!; try done; intros; simplify_eq; try done;
    unfold Header_Get;
    match goal with
    | Hh : RespHeader _ !! _ = _ |- _ => by rewrite Hh
    end.
Qed.

Lemma GetArtifactTextFile_outputs_witness :
  (GetArtifactTextFile (H := Scenario.make (λ _, None) Scenario.truncated)
     Demo.tc "logs/build.log" 12 Demo.s0).1
  = (Demo.bytes "par", EmptyString, Some "unexpected EOF")
  ∧ (GetArtifactTextFile (H := Scenario.make (λ _, None) Scenario.garbage)
       Demo.tc "index.html" 12 Demo.s0).1
    = (Demo.bytes "<html>", "text/html", None)
  ∧ GetArtifactTextFile
      (H := Scenario.make Scenario.parse_scheme Demo.server)
      Scenario.tc_no_scheme "index.html" 12 Demo.s0
    = ([], EmptyString, Some "missing protocol scheme", Demo.s0).
Proof.
  split_and!.
  - pose proof (GetArtifactTextFile_outputs
                  (H := Scenario.make (λ _, None) Scenario.truncated)
                  Demo.tc "logs/build.log" 12 Demo.s0)
      as (_ & _ & Hread & _).
    apply (Hread _ "unexpected EOF" eq_refl eq_refl eq_refl).
  - pose proof (GetArtifactTextFile_outputs
                  (H := Scenario.make (λ _, None) Scenario.garbage)
                  Demo.tc "index.html" 12 Demo.s0)
      as (_ & _ & _ & _ & Hok).
    apply (Hok _ "text/html" ["text/plain"] eq_refl eq_refl eq_refl).
    reflexivity.
  - pose proof (GetArtifactTextFile_outputs
                  (H := Scenario.make Scenario.parse_scheme Demo.server)
                  Scenario.tc_no_scheme "index.html" 12 Demo.s0)
      as (Hurl & _).
    apply Hurl. reflexivity.
Defined.

(** ** Build ids and URLs *)

Section urls.
Context `{Runtime}.

(** [%d] prints different ids differently. *)
Lemma fmt_d_inj (a b : Z) : fmt_d a = fmt_d b → a = b.
Proof.
  unfold fmt_d. intros Heq.
  assert (Hn : ∀ z, Z.to_int z ≠ Decimal.Pos Decimal.Nil
                    ∧ Z.to_int z ≠ Decimal.Neg Decimal.Nil).
  { intros [|p|p]; simpl; split; try discriminate;
      intros [= Hp]; by apply Unsigned.to_uint_nonnil in Hp. }
  assert (Hs : Some (Z.to_int a) = Some (Z.to_int b)).
  { rewrite <- (NilZero.isi (Z.to_int a)) by apply Hn.
    rewrite <- (NilZero.isi (Z.to_int b)) by apply Hn.
    by rewrite Heq. }
  injection Hs as Hs. apply (f_equal Z.of_int) in Hs.
  by rewrite !DecimalZ.of_to in Hs.
Qed.

Lemma GetBuild_sent {D : Type} {U : Unmarshal D}
    (t : TCClient) (id : Z) (d : D) (s : State) :
  url_Parse (serverURL t +:+ "/app/rest/builds/id:" +:+ fmt_d id) = None →
  sent (GetBuild t id d s).2
  = sent s
    ++ [api_request t "GET"
          (serverURL t +:+ "/app/rest/builds/id:" +:+ fmt_d id) None].
Proof.
  intros Hu. unfold GetBuild. rewrite (new_request_ok _ _ _ Hu). run_io.
  rewrite headers_of_new_request.
  repeat case_match; reflexivity.
Qed.

Lemma endpoints_differ (base x y : string) :
  base +:+ "/app/rest/builds/" +:+ x
  ≠ base +:+ "/app/rest/buildQueue/" +:+ y.
Proof.
  intros Heq. apply String.app_inj in Heq.
  apply (f_equal (String.get 15)) in Heq. vm_compute in Heq.
  discriminate Heq.
Qed.

End urls.

(** X16: requests for different builds are different requests: when the
    URLs parse (and the stop payloads marshal), [GetBuild],
    [CancelQueuedBuild] and [StopBuild] called for two build ids send
    the same request exactly when the ids are equal; and a [StopBuild]
    never sends the request of a [CancelQueuedBuild], whatever the
    ids. *)
Theorem build_id_determines_request
    `{Runtime} (t : TCClient) (i j : Z) (comment : string) (s : State)
    (bytes : list Byte.byte) :
  json_Marshal (stop_payload comment) = Ok bytes →
  (∀ id, url_Parse (serverURL t +:+ "/app/rest/builds/id:" +:+ fmt_d id)
         = None) →
  (∀ id, url_Parse (serverURL t +:+ "/app/rest/builds/" +:+ fmt_d id)
         = None) →
  (∀ id, url_Parse (serverURL t +:+ "/app/rest/buildQueue/" +:+ fmt_d id)
         = None) →
  (∀ (D : Type) (U : Unmarshal D) (d : D),
     sent (GetBuild t i d s).2 = sent (GetBuild t j d s).2 ↔ i = j)
  ∧ (sent (CancelQueuedBuild t i comment s).2
     = sent (CancelQueuedBuild t j comment s).2 ↔ i = j)
  ∧ (sent (StopBuild t i comment s).2 = sent (StopBuild t j comment s).2
     ↔ i = j)
  ∧ sent (StopBuild t i comment s).2
    ≠ sent (CancelQueuedBuild t j comment s).2.
Proof.
  intros Hm Hget Hstop Hcancel.
  rewrite !CancelQueuedBuild_post, !StopBuild_post.
  rewrite !(post_stop_payload_sent _ _ _ _ _ bytes) by done.
  split_and!.
  - intros D U d. rewrite !GetBuild_sent by done.
    split; [|by intros ->].
    intros Heq%app_inv_head. injection Heq as Heq.
    do 2 apply String.app_inj in Heq. by apply fmt_d_inj.
  - split; [|by intros ->].
    intros Heq%app_inv_head. injection Heq as Heq.
    do 2 apply String.app_inj in Heq. by apply fmt_d_inj.
  - split; [|by intros ->].
    intros Heq%app_inv_head. injection Heq as Heq.
    do 2 apply String.app_inj in Heq. by apply fmt_d_inj.
  - intros Heq%app_inv_head. injection Heq as Heq.
    by apply endpoints_differ in Heq.
Qed.

Lemma build_id_determines_request_witness :
  sent (StopBuild (H := Demo.runtime) Demo.tc 7 "done" Demo.s0).2
  ≠ sent (CancelQueuedBuild (H := Demo.runtime) Demo.tc 7 "done" Demo.s0).2
  ∧ sent (StopBuild (H := Demo.runtime) Demo.tc 7 "done" Demo.s0).2
    ≠ sent (StopBuild (H := Demo.runtime) Demo.tc 8 "done" Demo.s0).2.
Proof.
  pose proof (build_id_determines_request (H := Demo.runtime) Demo.tc 7 7
                "done" Demo.s0 (Demo.bytes "done:false") eq_refl
                (λ _, eq_refl) (λ _, eq_refl) (λ _, eq_refl))
    as (_ & _ & _ & Hne).
  pose proof (build_id_determines_request (H := Demo.runtime) Demo.tc 7 8
                "done" Demo.s0 (Demo.bytes "done:false") eq_refl
                (λ _, eq_refl) (λ _, eq_refl) (λ _, eq_refl))
    as (_ & _ & Hstop & _).
  split; [exact Hne|].
  intros Heq. apply Hstop in Heq. discriminate Heq.
Defined.
